(** * S3 object resource handlers: a shallow embedding

    The repository holds two versions of the CloudFormation resource type
    handlers for an S3 object:

    - [awscommunity_s3_object/handlers.py]  (module [AwsCommunity] below),
    - [aws_s3_object/handlers.py]           (module [AwsS3Object] below).

    Handlers are Python functions that mutate the request's model object,
    call an S3 client and either return a [ProgressEvent], return [None],
    or raise.  They are embedded as state-and-exception passing functions
    over a world made of the object store, the backend state and the trace
    of backend calls. *)

From stdpp Require Import base strings gmap functions.
From Stdlib Require Import ZArith.

Local Open Scope Z_scope.

(** ** Values shared by both handler files *)

(** [cloudformation_cli_python_lib.OperationStatus]: a [str]-mixin
    enumeration whose members equal their own names. *)
Inductive OperationStatus := PENDING | IN_PROGRESS | SUCCESS | FAILED.

Definition OperationStatus_name (s : OperationStatus) : string :=
  match s with
  | PENDING => "PENDING"
  | IN_PROGRESS => "IN_PROGRESS"
  | SUCCESS => "SUCCESS"
  | FAILED => "FAILED"
  end.

(** [HandlerErrorCode], restricted to the members the handlers produce. *)
Inductive HandlerErrorCode :=
| NotFound
| InvalidRequest
| Throttling
| GeneralServiceException
| InternalFailure.

#[global] Instance OperationStatus_eq_dec : EqDecision OperationStatus.
Proof. solve_decision. Defined.

#[global] Instance HandlerErrorCode_eq_dec : EqDecision HandlerErrorCode.
Proof. solve_decision. Defined.

(** [models.Tag] and [models.ResourceModel].  Every attribute of the
    generated model is optional; a tag always has both members. *)
Record Tag := mkTag { Key : string; Value : string }.

Record ResourceModel := mkResourceModel {
  BucketName : option string;
  ObjectKey : option string;
  ObjectContents : option string;
  ObjectArn : option string;
  Tags : option (list Tag)
}.

(** Model objects live in a store and are passed around by reference. *)
Definition loc := nat.

(** [models.ResourceHandlerRequest]: the tag mappings are kept as
    association lists in iteration order. *)
Record ResourceHandlerRequest := mkRequest {
  desiredResourceState : option loc;
  desiredResourceTags : option (list (string * string));
  previousResourceTags : option (list (string * string))
}.

(** [ProgressEvent] of the plugin library, with its defaults.  A single
    model is carried by reference; the list handler builds fresh objects
    that nothing else refers to, so the list carries them by value. *)
Record ProgressEvent := mkProgressEvent {
  status : OperationStatus;
  errorCode : option HandlerErrorCode;
  message : string;
  callbackContext : option (gmap string string);
  callbackDelaySeconds : Z;
  resourceModel : option loc;
  resourceModels : option (list ResourceModel);
  nextToken : option string
}.

Definition ProgressEvent_new (st : OperationStatus) : ProgressEvent :=
  {| status := st; errorCode := None; message := "";
     callbackContext := None; callbackDelaySeconds := 0;
     resourceModel := None; resourceModels := None; nextToken := None |}.

(** [ProgressEvent.failed(error_code, message)]. *)
Definition ProgressEvent_failed (c : HandlerErrorCode) (msg : string)
  : ProgressEvent :=
  {| status := FAILED; errorCode := Some c; message := msg;
     callbackContext := None; callbackDelaySeconds := 0;
     resourceModel := None; resourceModels := None; nextToken := None |}.

(** ** Python exceptions *)

Inductive exn :=
| ClientError (code msg : string)        (* botocore.exceptions.ClientError *)
| TypeError (msg : string)
| AttributeError (msg : string)
| UnboundLocalError (var : string)
| ValueError (msg : string)
| PyException (msg : string)             (* a plain Exception(msg) *)
| CfnInternalFailure (msg : string)      (* exceptions.InternalFailure *)
| OtherError (msg : string).             (* any other Exception subclass *)

(** The interpreter's text for a local read before any assignment, as
    Python 3.11 and later word it (earlier versions say
    [local variable '...' referenced before assignment]). *)
Definition unbound_local_text (var : string) : string :=
  "cannot access local variable '" +:+ var
  +:+ "' where it is not associated with a value".

(** [str(e)]. *)
Definition str_exn (e : exn) : string :=
  match e with
  | ClientError _ msg => msg
  | TypeError msg => msg
  | AttributeError msg => msg
  | UnboundLocalError var => unbound_local_text var
  | ValueError msg => msg
  | PyException msg => msg
  | CfnInternalFailure msg => msg
  | OtherError msg => msg
  end.

(** Getting or setting an attribute on [None]. *)
Definition none_has_no (attr : string) : exn :=
  AttributeError ("'NoneType' object has no attribute '" +:+ attr +:+ "'").

(** [botocore.exceptions] has no [GeneralServiceException]: looking the
    name up raises. *)
Definition missing_GeneralServiceException : exn :=
  AttributeError
    "module 'botocore.exceptions' has no attribute 'GeneralServiceException'".

Inductive Res (A : Type) :=
| Ok (a : A)
| Raise (e : exn).
Arguments Ok {A} a.
Arguments Raise {A} e.

(** ** Python truthiness and formatting *)

Definition truthy_str (o : option string) : bool :=
  match o with
  | Some (String _ _) => true
  | _ => false
  end.

Definition truthy_list {A} (o : option (list A)) : bool :=
  match o with
  | Some (_ :: _) => true
  | _ => false
  end.

Definition is_some {A} (o : option A) : bool :=
  match o with Some _ => true | None => false end.

(** An optional string inside an f-string. *)
Definition py_str (o : option string) : string :=
  match o with Some s => s | None => "None" end.

(** ['&'.join(xs)] *)
Fixpoint join_amp (xs : list string) : string :=
  match xs with
  | [] => ""
  | [x] => x
  | x :: rest => x +:+ "&" +:+ join_amp rest
  end.

(** The ARN f-string [f"arn:aws:s3:::{bucket}/{key}"]. *)
Definition object_arn (bucket key : string) : string :=
  "arn:aws:s3:::" +:+ bucket +:+ "/" +:+ key.

Definition CALLBACK_DELAY_SECONDS : Z := 5.

Definition CALLBACK_STATUS_IN_PROGRESS : gmap string string :=
  {[ "status" := OperationStatus_name IN_PROGRESS ]}.

(** [_is_callback]: the same text in both files. *)
Definition _is_callback (callback_context : gmap string string) : bool :=
  bool_decide (callback_context !! "status"
               = CALLBACK_STATUS_IN_PROGRESS !! "status").

(** [_progress_event_callback]: the same text in both files. *)
Definition _progress_event_callback (model : option loc) : ProgressEvent :=
  {| status := IN_PROGRESS; errorCode := None; message := "";
     callbackContext := Some CALLBACK_STATUS_IN_PROGRESS;
     callbackDelaySeconds := CALLBACK_DELAY_SECONDS;
     resourceModel := model; resourceModels := None; nextToken := None |}.

(** [_progress_event_success]: the same text in both files.  A model
    object is always truthy, so [not model] holds for [None] only; a model
    list is falsy when it is [None] or empty. *)
Definition _progress_event_success
    (model : option loc) (models : option (list ResourceModel))
    (is_delete_handler is_list_handler : bool) : Res ProgressEvent :=
  if negb (is_some model) && negb (truthy_list models)
     && negb is_delete_handler && negb is_list_handler
  then Raise (ValueError
    "Model, or models, or is_delete_handler, or is_list_handler unset")
  else if is_delete_handler && is_list_handler
  then Raise (ValueError
    "Specify either is_delete_handler or is_list_handler, not both")
  else if is_delete_handler
  then Ok (ProgressEvent_new SUCCESS)
  else if is_list_handler
  then Ok {| status := SUCCESS; errorCode := None; message := "";
             callbackContext := None; callbackDelaySeconds := 0;
             resourceModel := None; resourceModels := models;
             nextToken := None |}
  else Ok {| status := SUCCESS; errorCode := None; message := "";
             callbackContext := None; callbackDelaySeconds := 0;
             resourceModel := model; resourceModels := None;
             nextToken := None |}.

(** [_progress_event_failed]: the same text in both files.  The log entry
    it writes is not part of the returned event. *)
Definition _progress_event_failed
    (handler_error_code : HandlerErrorCode) (error_message : string)
  : ProgressEvent :=
  ProgressEvent_failed handler_error_code ("Error: " +:+ error_message).

(** [_get_handler_error_code] of the awscommunity file. *)
Definition invalid_request_codes : list string :=
  [ "InvalidParameter"; "InvalidParameterCombination";
    "InvalidParameterValue"; "InvalidTagKey.Malformed"; "MissingAction";
    "MissingParameter"; "UnknownParameter"; "ValidationError" ].

Definition _get_handler_error_code (api_error_code : string)
  : HandlerErrorCode :=
  if bool_decide (api_error_code = "NoSuchKey") then NotFound
  else if bool_decide (api_error_code ∈ invalid_request_codes)
  then InvalidRequest
  else if bool_decide (api_error_code ∈ ["RequestLimitExceeded"])
  then Throttling
  else GeneralServiceException.

(** ** The S3 client, the store and the handler monad *)

(** Responses of the client, reduced to the members the handlers read.
    [Body] is the outcome of [response['Body'].read().decode("utf-8")]. *)
Record PutObjectOutput := mkPutObjectOutput { VersionId : option string }.
Record GetObjectOutput := mkGetObjectOutput { Body : Res string }.
Record GetObjectTaggingOutput :=
  mkGetObjectTaggingOutput { TagSet : list (string * string) }.
Record S3Object := mkS3Object { ContentKey : string }.
Record ListObjectsV2Output :=
  mkListObjectsV2Output { Contents : option (list S3Object) }.

(** The backend is any state [B] together with the five operations the
    handlers use; each may raise and may change the backend. *)
Record S3Client (B : Type) := mkS3Client {
  put_object : string → string → string → option string →
               B → Res (option PutObjectOutput) * B;
  get_object : string → string → B → Res GetObjectOutput * B;
  get_object_tagging : string → string → B → Res GetObjectTaggingOutput * B;
  delete_object : string → string → B → Res unit * B;
  list_objects_v2 : string → B → Res ListObjectsV2Output * B
}.
Arguments put_object {B}.
Arguments get_object {B}.
Arguments get_object_tagging {B}.
Arguments delete_object {B}.
Arguments list_objects_v2 {B}.

(** [SessionProxy]; a session that is not one is [None]. *)
Record SessionProxy (B : Type) :=
  mkSessionProxy { client : string → S3Client B }.
Arguments client {B}.

(** The calls made on the client, in order. *)
Inductive S3Call :=
| PutObject (bucket key body : string) (tagging : option string)
| GetObject (bucket key : string)
| GetObjectTagging (bucket key : string)
| DeleteObject (bucket key : string)
| ListObjectsV2 (bucket : string).

Record World (B : Type) := mkWorld {
  heap : loc → ResourceModel;
  backend : B;
  calls : list S3Call
}.
Arguments mkWorld {B}.
Arguments heap {B}.
Arguments backend {B}.
Arguments calls {B}.

Definition M (B A : Type) : Type := World B → Res A * World B.

Section Monad.
Context {B : Type}.

Definition ret {A} (a : A) : M B A := fun w => (Ok a, w).

Definition bind {A C} (m : M B A) (k : A → M B C) : M B C :=
  fun w =>
    match m w with
    | (Ok a, w') => k a w'
    | (Raise e, w') => (Raise e, w')
    end.

Definition raise {A} (e : exn) : M B A := fun w => (Raise e, w).

Definition lift_res {A} (r : Res A) : M B A := fun w => (r, w).

(** [try: body except ...: handler], the store keeps what the body did. *)
Definition try_except {A} (body : M B A) (handler : exn → M B A) : M B A :=
  fun w =>
    match body w with
    | (Ok a, w') => (Ok a, w')
    | (Raise e, w') => handler e w'
    end.

(** A call [client.op(...)]: the backend moves and the call is recorded. *)
Definition invoke {A} (c : S3Call) (op : B → Res A * B) : M B A :=
  fun w =>
    let '(r, b') := op (backend w) in
    (r, mkWorld (heap w) b' (calls w ++ [c])).

(** Looking up a method on the client, which may be [None]. *)
Definition method (cl : option (S3Client B)) (name : string)
  : M B (S3Client B) :=
  match cl with
  | Some c => ret c
  | None => raise (none_has_no name)
  end.

(** Reading a local variable that may not have been assigned. *)
Definition local {A} (name : string) (v : option A) : M B A :=
  match v with
  | Some a => ret a
  | None => raise (UnboundLocalError name)
  end.

(** The current attributes of the object [model] refers to. *)
Definition deref (model : option loc) : M B (option ResourceModel) :=
  fun w => (Ok (heap w <$> model), w).

(** [model.attr = v]; on [None] the interpreter raises. *)
Definition setattr (attr : string) (model : option loc)
    (upd : ResourceModel → ResourceModel) : M B unit :=
  match model with
  | Some l =>
      fun w => (Ok (), mkWorld (<[l := upd (heap w l)]> (heap w))
                               (backend w) (calls w))
  | None => raise (none_has_no attr)
  end.
End Monad.

Notation "'let!' x ':=' m 'in' k" := (bind m (fun x => k))
  (at level 10, x name, k at level 200).
Notation "m ;;; k" := (bind m (fun _ => k))
  (at level 100, right associativity).

Definition set_ObjectContents (v : option string) (m : ResourceModel) :=
  mkResourceModel (BucketName m) (ObjectKey m) v (ObjectArn m) (Tags m).
Definition set_ObjectArn (v : option string) (m : ResourceModel) :=
  mkResourceModel (BucketName m) (ObjectKey m) (ObjectContents m) v (Tags m).
Definition set_Tags (v : option (list Tag)) (m : ResourceModel) :=
  mkResourceModel (BucketName m) (ObjectKey m) (ObjectContents m)
                  (ObjectArn m) v.

(** [_get_session_client]: the same text in both files. *)
Definition _get_session_client {B} (session : option (SessionProxy B))
    (service_name : string) : option (S3Client B) :=
  match session with
  | Some s => Some (client s service_name)
  | None => None
  end.

(** The dictionary built by [_upload_s3_helper]; ["Tags"] may be absent. *)
Record S3Params := mkS3Params {
  p_Bucket : string;
  p_Key : string;
  p_Body : string;
  p_Tags : option string
}.

(** ** [awscommunity_s3_object/handlers.py] *)

Module AwsCommunity.

(** [_get_tags_from_model_tags]: the accumulator starts as [[]]. *)
Definition _get_tags_from_model_tags (model_tags : list Tag) : list string :=
  fold_left (fun tags model_tag =>
               tags ++ [Key model_tag +:+ "=" +:+ Value model_tag])
            model_tags [].

(** [_get_model_tags_from_tags] *)
Definition _get_model_tags_from_tags (tags : list (string * string))
  : list Tag :=
  map (fun tag => mkTag (fst tag) (snd tag)) tags.

(** [_get_tags_from_desired_resource_tags].  The function has no
    [tags = []]: its local [tags] is unassigned when the loop first reads
    it for [tags += ...], and also at [return tags] after an empty loop. *)
Fixpoint desired_tags_loop (items : list (string * string))
    (tags : option (list string)) : Res (option (list string)) :=
  match items with
  | [] => Ok tags
  | (desired_resource_tag, v) :: rest =>
      match tags with
      | None => Raise (UnboundLocalError "tags")
      | Some ts =>
          desired_tags_loop rest
            (Some (ts ++ [desired_resource_tag +:+ "=" +:+ v]))
      end
  end.

Definition _get_tags_from_desired_resource_tags
    (desired_resource_tags : list (string * string)) : Res (list string) :=
  match desired_tags_loop desired_resource_tags None with
  | Raise e => Raise e
  | Ok None => Raise (UnboundLocalError "tags")
  | Ok (Some tags) => Ok tags
  end.

(** [_build_tag_list].  It only reads the model, so it takes the current
    attributes of the object. *)
Definition _build_tag_list (model : option ResourceModel)
    (request : ResourceHandlerRequest) : Res (list string) :=
  let tags : list string := [] in
  match
    (if truthy_list (desiredResourceTags request)
     then match _get_tags_from_desired_resource_tags
                  (default [] (desiredResourceTags request)) with
          | Ok desired_resource_tags => Ok (tags ++ desired_resource_tags)
          | Raise e => Raise e
          end
     else Ok tags)
  with
  | Raise e => Raise e
  | Ok tags =>
      match model with
      | Some m =>
          if truthy_list (Tags m)
          then Ok (tags ++ _get_tags_from_model_tags (default [] (Tags m)))
          else Ok tags
      | None => Ok tags
      end
  end.

(** [_upload_s3_helper].  [put_object_param] is assigned only when the
    model has a bucket, a key and contents. *)
Definition _upload_s3_helper (model : option ResourceModel)
    (request : ResourceHandlerRequest) : Res S3Params :=
  let put_object_param : option S3Params :=
    match model with
    | Some m =>
        if truthy_str (BucketName m) && truthy_str (ObjectKey m)
           && truthy_str (ObjectContents m)
        then Some (mkS3Params (default "" (BucketName m))
                              (default "" (ObjectKey m))
                              (default "" (ObjectContents m)) None)
        else None
    | None => None
    end in
  let has_tags :=
    match model with Some m => truthy_list (Tags m) | None => false end in
  if has_tags
  then match _build_tag_list model request with
       | Raise e => Raise e
       | Ok tags =>
           let tag_entry := join_amp tags in
           match put_object_param with
           | None => Raise (UnboundLocalError "put_object_param")
           | Some p =>
               Ok (mkS3Params (p_Bucket p) (p_Key p) (p_Body p)
                              (Some tag_entry))
           end
       end
  else match put_object_param with
       | None => Raise (UnboundLocalError "put_object_param")
       | Some p => Ok p
       end.

Section Handlers.
Context {B : Type}.

(** [_put_object]: with or without [Tagging], then [response != None]. *)
Definition _put_object (s3_params : S3Params)
    (client : option (S3Client B)) : M B bool :=
  let! c := method client "put_object" in
  let! response :=
    invoke (PutObject (p_Bucket s3_params) (p_Key s3_params)
                      (p_Body s3_params) (p_Tags s3_params))
           (put_object c (p_Bucket s3_params) (p_Key s3_params)
                       (p_Body s3_params) (p_Tags s3_params)) in
  ret (is_some response).

(** [read_handler].  Its clauses are [except ClientError], then
    [except botocore.exceptions.GeneralServiceException], then
    [except Exception].  An exception that is not a ClientError makes the
    interpreter evaluate the second clause's class, which does not exist:
    that lookup raises an AttributeError, which leaves the handler. *)
Definition read_handler (session : option (SessionProxy B))
    (request : ResourceHandlerRequest)
    (callback_context : gmap string string) : M B ProgressEvent :=
  let model := desiredResourceState request in
  let! failed :=
    try_except
      (let! m := deref model in
       let model_object_key :=
         match m with
         | Some m => if truthy_str (ObjectKey m)
                     then default "" (ObjectKey m) else ""
         | None => ""
         end in
       let model_bucket_name :=
         match m with
         | Some m => if truthy_str (BucketName m)
                     then default "" (BucketName m) else ""
         | None => ""
         end in
       let client := _get_session_client session "s3" in
       let! c := method client "get_object" in
       let! response :=
         invoke (GetObject model_bucket_name model_object_key)
                (get_object c model_bucket_name model_object_key) in
       let! object_body_contents := lift_res (Body response) in
       (if is_some model
        then setattr "ObjectContents" model
               (set_ObjectContents (Some object_body_contents))
        else ret ()) ;;;
       setattr "ObjectArn" model
         (set_ObjectArn
            (Some (object_arn model_bucket_name model_object_key))) ;;;
       let! c := method client "get_object_tagging" in
       let! response :=
         invoke (GetObjectTagging model_bucket_name model_object_key)
                (get_object_tagging c model_bucket_name
                                    model_object_key) in
       let tag_set := TagSet response in
       setattr "Tags" model
         (set_Tags (Some (_get_model_tags_from_tags tag_set))) ;;;
       ret None)
      (fun e =>
         match e with
         | ClientError code msg =>
             ret (Some (_progress_event_failed
                          (_get_handler_error_code code) (str_exn e)))
         | _ =>
             (* the next clause is tried: evaluating its class raises,
                and the last clause is never reached *)
             raise missing_GeneralServiceException
         end) in
  match failed with
  | Some ev => ret ev
  | None => lift_res (_progress_event_success model None false false)
  end.

(** [_callback_helper].  When the read fails with a code other than
    [NotFound], no branch returns: the function ends and yields [None]. *)
Definition _callback_helper (session : option (SessionProxy B))
    (request : ResourceHandlerRequest)
    (callback_context : gmap string string)
    (model : option loc) (is_delete_handler : bool)
  : M B (option ProgressEvent) :=
  let! rh := read_handler session request callback_context in
  if bool_decide (status rh = SUCCESS)
  then let! ev := lift_res (_progress_event_success model None false false) in
       ret (Some ev)
  else match errorCode rh with
       | Some code =>
           if bool_decide (code = NotFound) && is_delete_handler
           then let! ev :=
                  lift_res (_progress_event_success None None true false) in
                ret (Some ev)
           else if bool_decide (code = NotFound)
           then ret (Some (_progress_event_failed code (message rh)))
           else ret None
       | None => ret (Some (_progress_event_callback model))
       end.

(** The body shared, word for word, by [create_handler] and
    [update_handler] after the callback test. *)
Definition upload (session : option (SessionProxy B))
    (request : ResourceHandlerRequest) (model : option loc)
  : M B (option ProgressEvent) :=
  let! failed :=
    try_except
      (let client := _get_session_client session "s3" in
       let! m := deref model in
       let! s3_params := lift_res (_upload_s3_helper m request) in
       let! is_uploaded := _put_object s3_params client in
       if negb is_uploaded
       then raise (PyException "File Failed to upload")
       else
         let! m := deref model in
         match m with
         | None => raise (none_has_no "BucketName")
         | Some m =>
             setattr "ObjectArn" model
               (set_ObjectArn
                  (Some (object_arn (py_str (BucketName m))
                                    (py_str (ObjectKey m))))) ;;;
             ret None
         end)
      (fun e =>
         match e with
         | ClientError code msg =>
             ret (Some (_progress_event_failed
                          (_get_handler_error_code code) (str_exn e)))
         | _ =>
             ret (Some (_progress_event_failed InternalFailure
                                               (str_exn e)))
         end) in
  match failed with
  | Some ev => ret (Some ev)
  | None => ret (Some (_progress_event_callback model))
  end.

(** [create_handler].  Its local [progress] event is built and updated
    but never returned, so it does not appear. *)
Definition create_handler (session : option (SessionProxy B))
    (request : ResourceHandlerRequest)
    (callback_context : gmap string string)
  : M B (option ProgressEvent) :=
  let model := desiredResourceState request in
  if _is_callback callback_context
  then _callback_helper session request callback_context model false
  else upload session request model.

(** [update_handler] *)
Definition update_handler (session : option (SessionProxy B))
    (request : ResourceHandlerRequest)
    (callback_context : gmap string string)
  : M B (option ProgressEvent) :=
  let model := desiredResourceState request in
  if _is_callback callback_context
  then _callback_helper session request callback_context model false
  else upload session request model.

(** [delete_handler] *)
Definition delete_handler (session : option (SessionProxy B))
    (request : ResourceHandlerRequest)
    (callback_context : gmap string string)
  : M B (option ProgressEvent) :=
  let model := desiredResourceState request in
  if _is_callback callback_context
  then _callback_helper session request callback_context model true
  else
    let! returned :=
      try_except
        (let! m := deref model in
         let model_bucket_name : option string :=
           match m with
           | Some m => if truthy_str (BucketName m)
                       then BucketName m else None
           | None => None
           end in
         let model_object_key : option string :=
           match m with
           | Some m => if truthy_str (ObjectKey m)
                       then ObjectKey m else None
           | None => None
           end in
         let client := _get_session_client session "s3" in
         let! rh := read_handler session request callback_context in
         let delete_it : M B (option ProgressEvent) :=
           (if is_some model
            then let! c := method client "delete_object" in
                 let! b := local "model_bucket_name" model_bucket_name in
                 let! k := local "model_object_key" model_object_key in
                 invoke (DeleteObject b k) (delete_object c b k)
            else ret ()) ;;;
           ret None in
         match errorCode rh with
         | Some code =>
             if bool_decide (code = NotFound)
             then ret (Some (_progress_event_failed NotFound (message rh)))
             else delete_it
         | None => delete_it
         end)
        (fun e =>
           match e with
           | ClientError code msg =>
               ret (Some (_progress_event_failed
                            (_get_handler_error_code code) (str_exn e)))
           | _ =>
               ret (Some (_progress_event_failed InternalFailure
                                                 (str_exn e)))
           end) in
    match returned with
    | Some ev => ret (Some ev)
    | None =>
        let! ev := lift_res (_progress_event_success None None true false) in
        ret (Some ev)
    end.

(** [list_handler] *)
Definition list_handler (session : option (SessionProxy B))
    (request : ResourceHandlerRequest)
    (callback_context : gmap string string) : M B ProgressEvent :=
  let model := desiredResourceState request in
  let! outcome :=
    try_except
      (let! m := deref model in
       let model_bucket_name : option string :=
         match m with
         | Some m => if truthy_str (BucketName m)
                     then BucketName m else None
         | None => None
         end in
       let client := _get_session_client session "s3" in
       let! c := method client "list_objects_v2" in
       let! b := local "model_bucket_name" model_bucket_name in
       let! response := invoke (ListObjectsV2 b) (list_objects_v2 c b) in
       match Contents response with
       | Some contents =>
           ret (inr (map (fun content =>
                            {| ObjectArn :=
                                 Some (object_arn b (ContentKey content));
                               ObjectKey := Some (ContentKey content);
                               BucketName := Some b;
                               ObjectContents := None;
                               Tags := None |})
                         contents))
       | None => ret (inr [])
       end)
      (fun e =>
         match e with
         | ClientError code msg =>
             ret (inl (_progress_event_failed
                         (_get_handler_error_code code) (str_exn e)))
         | _ =>
             ret (inl (_progress_event_failed InternalFailure (str_exn e)))
         end) in
  match outcome with
  | inl ev => ret ev
  | inr models =>
      lift_res (_progress_event_success None (Some models) false true)
  end.
End Handlers.

End AwsCommunity.

(** ** [aws_s3_object/handlers.py] *)

Module AwsS3Object.

(** [_upload_s3_helper]: returns the dictionary, or falls off the end and
    yields [None]. *)
Definition _upload_s3_helper (model : option ResourceModel)
    (request : ResourceHandlerRequest) : option S3Params :=
  match model with
  | Some m =>
      if truthy_str (BucketName m) && truthy_str (ObjectKey m)
         && truthy_str (ObjectContents m)
      then Some (mkS3Params (default "" (BucketName m))
                            (default "" (ObjectKey m))
                            (default "" (ObjectContents m)) None)
      else None
  | None => None
  end.

Section Handlers.
Context {B : Type}.

(** [_put_object]: uploaded only if the response has a ["VersionId"]. *)
Definition _put_object (s3_params : option S3Params)
    (client : option (S3Client B)) : M B bool :=
  let! c := method client "put_object" in
  match s3_params with
  | None => raise (TypeError "'NoneType' object is not subscriptable")
  | Some p =>
      let! response :=
        invoke (PutObject (p_Bucket p) (p_Key p) (p_Body p) None)
               (put_object c (p_Bucket p) (p_Key p) (p_Body p) None) in
      match response with
      | None => raise (TypeError "argument of type 'NoneType' is not iterable")
      | Some r => if is_some (VersionId r) then ret true else ret false
      end
  end.

(** [read_handler]: a stub that hands the request's model back. *)
Definition read_handler (session : option (SessionProxy B))
    (request : ResourceHandlerRequest)
    (callback_context : gmap string string) : M B ProgressEvent :=
  let model := desiredResourceState request in
  ret {| status := SUCCESS; errorCode := None; message := "";
         callbackContext := None; callbackDelaySeconds := 0;
         resourceModel := model; resourceModels := None;
         nextToken := None |}.

(** [_callback_helper]: the text of the other file, over this
    [read_handler]. *)
Definition _callback_helper (session : option (SessionProxy B))
    (request : ResourceHandlerRequest)
    (callback_context : gmap string string)
    (model : option loc) (is_delete_handler : bool)
  : M B (option ProgressEvent) :=
  let! rh := read_handler session request callback_context in
  if bool_decide (status rh = SUCCESS)
  then let! ev := lift_res (_progress_event_success model None false false) in
       ret (Some ev)
  else match errorCode rh with
       | Some code =>
           if bool_decide (code = NotFound) && is_delete_handler
           then let! ev :=
                  lift_res (_progress_event_success None None true false) in
                ret (Some ev)
           else if bool_decide (code = NotFound)
           then ret (Some (_progress_event_failed code (message rh)))
           else ret None
       | None => ret (Some (_progress_event_callback model))
       end.

(** The [try] block of [create_handler] and [update_handler]: only a
    [TypeError] is caught, and turned into [exceptions.InternalFailure]. *)
Definition upload (session : option (SessionProxy B))
    (request : ResourceHandlerRequest) (model : option loc) : M B unit :=
  try_except
    (let client := _get_session_client session "s3" in
     let! m := deref model in
     let s3_params := _upload_s3_helper m request in
     let! is_uploaded := _put_object s3_params client in
     if negb is_uploaded
     then raise (PyException "File Failed to upload")
     else
       let! m := deref model in
       match m with
       | None => raise (none_has_no "BucketName")
       | Some m =>
           setattr "ObjectArn" model
             (set_ObjectArn
                (Some (object_arn (py_str (BucketName m))
                                  (py_str (ObjectKey m)))))
       end)
    (fun e =>
       match e with
       | TypeError msg =>
           raise (CfnInternalFailure ("was not expecting type " +:+ msg))
       | _ => raise e
       end).

(** [create_handler] *)
Definition create_handler (session : option (SessionProxy B))
    (request : ResourceHandlerRequest)
    (callback_context : gmap string string)
  : M B (option ProgressEvent) :=
  let model := desiredResourceState request in
  if _is_callback callback_context
  then _callback_helper session request callback_context model false
  else
    upload session request model ;;;
    ret (Some (_progress_event_callback model)).

(** [update_handler]: the callback test is negated here, and the
    handler ends with the read. *)
Definition update_handler (session : option (SessionProxy B))
    (request : ResourceHandlerRequest)
    (callback_context : gmap string string)
  : M B (option ProgressEvent) :=
  let model := desiredResourceState request in
  if negb (_is_callback callback_context)
  then _callback_helper session request callback_context model false
  else
    upload session request model ;;;
    let! ev := read_handler session request callback_context in
    ret (Some ev).

(** [delete_handler]: a stub. *)
Definition delete_handler (session : option (SessionProxy B))
    (request : ResourceHandlerRequest)
    (callback_context : gmap string string) : M B ProgressEvent :=
  ret {| status := IN_PROGRESS; errorCode := None; message := "";
         callbackContext := None; callbackDelaySeconds := 0;
         resourceModel := None; resourceModels := None;
         nextToken := None |}.

(** [list_handler]: a stub. *)
Definition list_handler (session : option (SessionProxy B))
    (request : ResourceHandlerRequest)
    (callback_context : gmap string string) : M B ProgressEvent :=
  ret {| status := SUCCESS; errorCode := None; message := "";
         callbackContext := None; callbackDelaySeconds := 0;
         resourceModel := None; resourceModels := Some [];
         nextToken := None |}.
End Handlers.

End AwsS3Object.

(** ** A small in-memory bucket store, used for concrete runs *)

Module MemS3.

(** Objects in insertion order: bucket, key, body and tag set. *)
Record Obj := mkObj {
  o_bucket : string;
  o_key : string;
  o_body : string;
  o_tags : list (string * string)
}.

Definition state := list Obj.

Definition is_at (b k : string) (o : Obj) : bool :=
  bool_decide (o_bucket o = b) && bool_decide (o_key o = k).

Definition find (b k : string) (st : state) : option Obj :=
  List.find (is_at b k) st.

Definition no_such_key : exn :=
  ClientError "NoSuchKey" "The specified key does not exist.".

(** [versioned] tells whether a put is acknowledged with a version id. *)
Definition s3 (versioned : bool) : S3Client state :=
  {| put_object b k body tagging st :=
       (Ok (Some (mkPutObjectOutput
                    (if versioned then Some "v1" else None))),
        mkObj b k body [] :: filter (fun o => negb (is_at b k o)) st);
     get_object b k st :=
       match find b k st with
       | Some o => (Ok (mkGetObjectOutput (Ok (o_body o))), st)
       | None => (Raise no_such_key, st)
       end;
     get_object_tagging b k st :=
       match find b k st with
       | Some o => (Ok (mkGetObjectTaggingOutput (o_tags o)), st)
       | None => (Raise no_such_key, st)
       end;
     delete_object b k st :=
       (Ok (), filter (fun o => negb (is_at b k o)) st);
     list_objects_v2 b st :=
       match filter (fun o => bool_decide (o_bucket o = b)) st with
       | [] => (Ok (mkListObjectsV2Output None), st)
       | os => (Ok (mkListObjectsV2Output
                      (Some (map (fun o => mkS3Object (o_key o)) os))), st)
       end |}.

Definition session (versioned : bool) : option (SessionProxy state) :=
  Some (mkSessionProxy state (fun _ => s3 versioned)).

(** A client whose reads are throttled. *)
Definition throttled : S3Client state :=
  {| put_object b k body tagging st :=
       (Raise (ClientError "RequestLimitExceeded" "Slow down"), st);
     get_object b k st :=
       (Raise (ClientError "RequestLimitExceeded" "Slow down"), st);
     get_object_tagging b k st :=
       (Raise (ClientError "RequestLimitExceeded" "Slow down"), st);
     delete_object b k st :=
       (Raise (ClientError "RequestLimitExceeded" "Slow down"), st);
     list_objects_v2 b st :=
       (Raise (ClientError "RequestLimitExceeded" "Slow down"), st) |}.

Definition throttled_session : option (SessionProxy state) :=
  Some (mkSessionProxy state (fun _ => throttled)).

(** The model object of the runs sits at address [0]. *)
Definition model0 : ResourceModel :=
  {| BucketName := Some "bkt"; ObjectKey := Some "k.txt";
     ObjectContents := Some "hello"; ObjectArn := None; Tags := None |}.

Definition blank : ResourceModel :=
  mkResourceModel None None None None None.

Definition heap0 : loc → ResourceModel := <[0%nat := model0]> (fun _ => blank).

Definition request0 : ResourceHandlerRequest :=
  mkRequest (Some 0%nat) None None.

Definition world (st : state) : World state := mkWorld heap0 st [].

Definition stored : state := [mkObj "bkt" "k.txt" "hello" [("team", "infra")]].

Definition fresh_context : gmap string string := ∅.
Definition resumed_context : gmap string string :=
  {[ "status" := "IN_PROGRESS" ]}.

End MemS3.

(** ** Vocabulary of the statements *)

(** The ARN a model should carry: built from its own bucket name and key,
    an unset name contributing the empty string as in [read_handler]. *)
Definition arn_of (m : ResourceModel) : string :=
  "arn:aws:s3:::" +:+ default "" (BucketName m)
  +:+ "/" +:+ default "" (ObjectKey m).

(** Between two stores no object changed its bucket name or key, and an
    ARN that changed was set to [arn_of]. *)
Definition arn_step (h h' : loc → ResourceModel) : Prop :=
  ∀ l, BucketName (h' l) = BucketName (h l) ∧
       ObjectKey (h' l) = ObjectKey (h l) ∧
       (ObjectArn (h' l) = ObjectArn (h l)
        ∨ ObjectArn (h' l) = Some (arn_of (h' l))).

(** What an event carries is in order when its single model, looked up in
    the store, and each model of its list have the ARN of their names. *)
Definition attached_ok (h : loc → ResourceModel) (ev : ProgressEvent) : Prop :=
  (∀ l, resourceModel ev = Some l → ObjectArn (h l) = Some (arn_of (h l))) ∧
  (∀ ms m, resourceModels ev = Some ms → m ∈ ms →
           ObjectArn m = Some (arn_of m)).

(** A run from [w] is in order when the store it leaves is an [arn_step]
    away and the event it returns, if any, is [attached_ok]. *)
Definition run_ok {B} (w : World B)
    (r : Res (option ProgressEvent) * World B) : Prop :=
  arn_step (heap w) (heap (snd r)) ∧
  match fst r with
  | Ok (Some ev) => attached_ok (heap (snd r)) ev
  | _ => True
  end.

(** The run of a handler that always returns an event when it returns. *)
Definition returned {B} (r : Res ProgressEvent * World B)
  : Res (option ProgressEvent) * World B :=
  (match fst r with Ok ev => Ok (Some ev) | Raise e => Raise e end, snd r).

(** The calls that only read the backend. *)
Definition is_read_call (c : S3Call) : bool :=
  match c with
  | GetObject _ _ | GetObjectTagging _ _ => true
  | _ => false
  end.

(** The shape of an event by its status: a FAILED event has an error code,
    a message behind ["Error: "] and no payload; a SUCCESS event has no
    error code and asks for no callback; an IN_PROGRESS event carries a
    context that [_is_callback] recognises and the fixed delay. *)
Definition event_ok (ev : ProgressEvent) : Prop :=
  match status ev with
  | FAILED =>
      is_some (errorCode ev) = true ∧
      (∃ text, message ev = "Error: " +:+ text) ∧
      resourceModel ev = None ∧ resourceModels ev = None ∧
      callbackContext ev = None
  | SUCCESS =>
      errorCode ev = None ∧ callbackContext ev = None ∧
      callbackDelaySeconds ev = 0
  | IN_PROGRESS =>
      errorCode ev = None ∧
      (∃ ctx, callbackContext ev = Some ctx ∧ _is_callback ctx = true) ∧
      callbackDelaySeconds ev = CALLBACK_DELAY_SECONDS
  | PENDING => False
  end.

(** The event of a run, if it returned one, is [event_ok]. *)
Definition returns_ok {B} (r : Res (option ProgressEvent) * World B) : Prop :=
  match fst r with
  | Ok (Some ev) => event_ok ev
  | _ => True
  end.

(** What [except ClientError ... except Exception ...] of the awscommunity
    handlers makes of an exception. *)
Definition failure_of (e : exn) : ProgressEvent :=
  match e with
  | ClientError code msg =>
      _progress_event_failed (_get_handler_error_code code) msg
  | _ => _progress_event_failed InternalFailure (str_exn e)
  end.

(** From [w] to [w'] at most two calls were added, each a read. *)
Definition only_reads {B} (w w' : World B) : Prop :=
  ∃ t, calls w' = calls w ++ t ∧
       forallb is_read_call t = true ∧ (length t ≤ 2)%nat.

(** What the clauses of [read_handler] make of an exception: a ClientError
    becomes a FAILED event of the classified kind; for anything else the
    second clause's missing class is looked up and the handler raises. *)
Definition read_failure (e : exn) : Res ProgressEvent :=
  match e with
  | ClientError code msg =>
      Ok (_progress_event_failed (_get_handler_error_code code) msg)
  | _ => Raise missing_GeneralServiceException
  end.

(** * Properties *)

(** ** Error classifier *)

Lemma classify_not_found : _get_handler_error_code "NoSuchKey" = NotFound.
Proof. reflexivity. Qed.

Lemma classify_throttling :
  _get_handler_error_code "RequestLimitExceeded" = Throttling.
Proof. reflexivity. Qed.

Lemma classify_unknown :
  _get_handler_error_code "TotallyUnknownCode" = GeneralServiceException.
Proof. reflexivity. Qed.

(** C5: the classifier is defined on every code string and sends it to
    exactly one kind: ["NoSuchKey"] to NotFound, ["RequestLimitExceeded"] to
    Throttling, the eight parameter and validation codes to InvalidRequest,
    every other string to GeneralServiceException; it never answers
    InternalFailure. *)
Theorem error_classifier_total (code : string) :
  (_get_handler_error_code code = NotFound ↔ code = "NoSuchKey") ∧
  (_get_handler_error_code code = Throttling
     ↔ code = "RequestLimitExceeded") ∧
  (_get_handler_error_code code = InvalidRequest
     ↔ code ∈ [ "InvalidParameter"; "InvalidParameterCombination";
                "InvalidParameterValue"; "InvalidTagKey.Malformed";
                "MissingAction"; "MissingParameter"; "UnknownParameter";
                "ValidationError" ]) ∧
  (_get_handler_error_code code = GeneralServiceException
     ↔ code ≠ "NoSuchKey" ∧ code ≠ "RequestLimitExceeded" ∧
       code ∉ [ "InvalidParameter"; "InvalidParameterCombination";
                "InvalidParameterValue"; "InvalidTagKey.Malformed";
                "MissingAction"; "MissingParameter"; "UnknownParameter";
                "ValidationError" ]) ∧
  _get_handler_error_code code ≠ InternalFailure.
Proof.
  unfold _get_handler_error_code, invalid_request_codes.
  repeat case_bool_decide; subst;
    repeat split; intros; subst; try done;
    repeat match goal with
           | H : _ ∧ _ |- _ => destruct H
           | H : _ ∈ [_] |- _ => apply list_elem_of_singleton in H; subst
           | H : ?x ∉ ?l, H' : ?x ∈ ?l |- _ => destruct (H H')
           | H : ?x ∉ [?x] |- _ => destruct H; apply list_elem_of_singleton
           end; try done.
  all: try match goal with
           | H : _ ∈ _ |- _ =>
               exfalso; apply (bool_decide_pack _) in H;
               vm_compute in H; exact H
           end.
  intros ->. match goal with H : _ ∉ [_] |- _ => apply H end.
  by apply list_elem_of_singleton.
Qed.

(** ** Success constructor *)

(** C7: the success constructor raises (a [ValueError]) exactly when it is
    given no model, no non-empty model list and neither flag, or when both
    flags are set; otherwise it returns a SUCCESS event whose payload is
    chosen by the arguments: nothing for the delete flag, the model list
    for the list flag, the single model otherwise. *)
Theorem success_constructor_contract
    (model : option loc) (models : option (list ResourceModel))
    (is_delete_handler is_list_handler : bool) :
  let violation :=
    (model = None ∧ truthy_list models = false ∧
     is_delete_handler = false ∧ is_list_handler = false)
    ∨ (is_delete_handler = true ∧ is_list_handler = true) in
  match _progress_event_success model models
          is_delete_handler is_list_handler with
  | Raise e => violation ∧ ∃ msg, e = ValueError msg
  | Ok ev =>
      ¬ violation ∧
      status ev = SUCCESS ∧ errorCode ev = None ∧
      resourceModel ev =
        (if is_delete_handler || is_list_handler then None else model) ∧
      resourceModels ev =
        (if is_delete_handler then None
         else if is_list_handler then models else None)
  end.
Proof.
  unfold _progress_event_success.
  destruct model, (truthy_list models) eqn:Hm,
    is_delete_handler, is_list_handler; simpl;
    repeat split; eauto;
    try (intros [(? & ? & ? & ?)|(? & ?)]; congruence);
    first [by left | by right].
Qed.

(** An empty model list counts as no list. *)
Lemma success_constructor_empty_list :
  _progress_event_success None (Some []) false false
  = Raise (ValueError
      "Model, or models, or is_delete_handler, or is_list_handler unset").
Proof. reflexivity. Qed.

(** ** Tag list *)

(** The stack-tag conversion never gets past its first read of [tags]. *)
Lemma desired_tags_always_raise (desired_resource_tags : list (string * string)) :
  AwsCommunity._get_tags_from_desired_resource_tags desired_resource_tags
  = Raise (UnboundLocalError "tags").
Proof.
  unfold AwsCommunity._get_tags_from_desired_resource_tags.
  destruct desired_resource_tags as [|[k v] rest]; reflexivity.
Qed.

(** Without stack tags the model tags come out in their order. *)
Lemma build_tag_list_model_only (m : ResourceModel) (request : ResourceHandlerRequest) :
  truthy_list (desiredResourceTags request) = false →
  AwsCommunity._build_tag_list (Some m) request
  = Ok (map (fun t => Key t +:+ "=" +:+ Value t) (default [] (Tags m))).
Proof.
  intros Hs. unfold AwsCommunity._build_tag_list. rewrite Hs. simpl.
  assert (Hfold : ∀ (ts : list Tag) (acc : list string),
             fold_left (fun tags model_tag =>
                          tags ++ [Key model_tag +:+ "=" +:+ Value model_tag])
                       ts acc
             = acc ++ map (fun t => Key t +:+ "=" +:+ Value t) ts).
  { induction ts as [|t ts IH]; intros acc; simpl.
    - by rewrite app_nil_r.
    - rewrite IH. by rewrite <- app_assoc. }
  destruct (Tags m) as [[|t ts]|]; simpl; try reflexivity.
  unfold AwsCommunity._get_tags_from_model_tags. simpl.
  by rewrite Hfold.
Qed.

(** C6: with stack tags [{env: prod}] and model tags [[(team, infra)]] the
    tag list is not built: the conversion of the stack tags reads its
    accumulator before any assignment and the call raises. *)
Theorem build_tag_list_stack_tags_raise :
  AwsCommunity._build_tag_list
    (Some {| BucketName := Some "bkt"; ObjectKey := Some "k.txt";
             ObjectContents := Some "hello"; ObjectArn := None;
             Tags := Some [mkTag "team" "infra"] |})
    {| desiredResourceState := Some 0%nat;
       desiredResourceTags := Some [("env", "prod")];
       previousResourceTags := None |}
  = Raise (UnboundLocalError "tags").
Proof. reflexivity. Qed.

(** Had the accumulator been started as [[]], the loop would give the
    stack tags in mapping order, and the example its expected encoding. *)
Lemma desired_tags_loop_initialised (items : list (string * string))
    (acc : list string) :
  AwsCommunity.desired_tags_loop items (Some acc)
  = Ok (Some (acc ++ map (fun kv => fst kv +:+ "=" +:+ snd kv) items)).
Proof.
  revert acc. induction items as [|[k v] items IH]; intros acc; simpl.
  - by rewrite app_nil_r.
  - rewrite IH. by rewrite <- app_assoc.
Qed.

Lemma expected_tag_encoding :
  AwsCommunity.desired_tags_loop [("env", "prod")] (Some [])
    = Ok (Some ["env=prod"]) ∧
  AwsCommunity._get_tags_from_model_tags [mkTag "team" "infra"]
    = ["team=infra"] ∧
  join_amp (["env=prod"] ++ ["team=infra"]) = "env=prod&team=infra".
Proof. repeat split. Qed.

(** With model tags and stack tags together, a fresh create fails before
    any backend call. *)
Lemma fresh_create_with_both_tags :
  let h : loc → ResourceModel :=
    <[0%nat := set_Tags (Some [mkTag "team" "infra"]) MemS3.model0]>
      MemS3.heap0 in
  let r := AwsCommunity.create_handler (MemS3.session true)
             (mkRequest (Some 0%nat) (Some [("env", "prod")]) None)
             MemS3.fresh_context (mkWorld h [] []) in
  (∃ ev, fst r = Ok (Some ev) ∧
         status ev = FAILED ∧ errorCode ev = Some InternalFailure) ∧
  calls (snd r) = [].
Proof.
  split; [|vm_compute; reflexivity].
  eexists. split; [vm_compute; reflexivity|]. split; reflexivity.
Qed.

(** ** Stores *)

Lemma arn_step_refl (h : loc → ResourceModel) : arn_step h h.
Proof. intros l. auto. Qed.

Lemma arn_step_trans (h1 h2 h3 : loc → ResourceModel) :
  arn_step h1 h2 → arn_step h2 h3 → arn_step h1 h3.
Proof.
  intros H12 H23 l.
  destruct (H12 l) as (Hb1 & Hk1 & Ha1), (H23 l) as (Hb2 & Hk2 & Ha2).
  split; [congruence|]. split; [congruence|].
  destruct Ha2 as [Ha2|Ha2]; [|by right].
  destruct Ha1 as [Ha1|Ha1]; [left; congruence|].
  right. rewrite Ha2, Ha1. unfold arn_of. by rewrite Hb2, Hk2.
Qed.

Lemma arn_step_insert (h : loc → ResourceModel) (l : loc) (m : ResourceModel) :
  BucketName m = BucketName (h l) →
  ObjectKey m = ObjectKey (h l) →
  ObjectArn m = ObjectArn (h l) ∨ ObjectArn m = Some (arn_of m) →
  arn_step h (<[l := m]> h).
Proof.
  intros Hb Hk Ha l'. destruct (decide (l = l')) as [<-|Hne].
  - by rewrite fn_lookup_insert.
  - rewrite fn_lookup_insert_ne by done. auto.
Qed.

Lemma truthy_str_default (o : option string) :
  (if truthy_str o then default "" o else "") = default "" o.
Proof. by destruct o as [[|]|]. Qed.

Lemma truthy_str_py_str (o : option string) :
  truthy_str o = true → py_str o = default "" o.
Proof. by destruct o as [[|]|]. Qed.


Ltac unfold_monad :=
  unfold bind, lift_res, try_except, invoke, method, local, deref, setattr,
    ret, raise in *.

(** One step of symbolic execution: split on the outcome of the next
    test or call of the handler being run. *)
Ltac exec_step :=
  match goal with
  | H : (_, _) = (_, _) |- _ => progress simplify_eq
  | H : context [match ?x with _ => _ end] |- _ =>
      destruct x eqn:?; simpl in H; try discriminate
  | H : context [let '(_, _) := ?x in _] |- _ =>
      destruct x eqn:?; simpl in H; try discriminate
  end.

Section AwsCommunityRead.
Context {B : Type}.
Implicit Types (session : option (SessionProxy B)) (w : World B).
Import AwsCommunity.

(** What a call of [read_handler] can come to. *)
Lemma read_handler_result session request callback_context w res w' :
  read_handler session request callback_context w = (res, w') →
  (∃ l, desiredResourceState request = Some l ∧
        res = Ok {| status := SUCCESS; errorCode := None; message := "";
                    callbackContext := None; callbackDelaySeconds := 0;
                    resourceModel := Some l; resourceModels := None;
                    nextToken := None |} ∧
        ObjectArn (heap w' l) = Some (arn_of (heap w' l)))
  ∨ (∃ code msg, res = Ok (_progress_event_failed code msg))
  ∨ res = Raise missing_GeneralServiceException.
Proof.
  unfold read_handler. unfold_monad.
  destruct (desiredResourceState request) as [l|], session as [sp|];
    simpl; rewrite ?truthy_str_default; intros H.
  all: repeat exec_step; simpl in *; eauto 8.
  all: left; eexists; split; [done|]; split; [done|].
  all: simpl; rewrite !fn_lookup_insert; reflexivity.
Qed.

(** The read changes no name, and sets the ARN to [arn_of] if at all. *)
Lemma read_handler_arn_step session request callback_context w res w' :
  read_handler session request callback_context w = (res, w') →
  arn_step (heap w) (heap w').
Proof.
  unfold read_handler. unfold_monad.
  destruct (desiredResourceState request) as [l|], session as [sp|];
    simpl; rewrite ?truthy_str_default; intros H.
  all: repeat exec_step; simpl in *; try apply arn_step_refl.
  all: repeat (eapply arn_step_trans;
               [|apply arn_step_insert; simpl; rewrite ?fn_lookup_insert;
                 simpl; auto]).
  all: try apply arn_step_refl.
Qed.

(** A failed read carries an error code and no model. *)
Lemma read_handler_not_in_progress session request callback_context w ev w' :
  read_handler session request callback_context w = (Ok ev, w') →
  status ev = SUCCESS ∨ (status ev = FAILED ∧ is_some (errorCode ev) = true).
Proof.
  intros H. apply read_handler_result in H as [(l & _ & ? & _)|[(c & m & ?)|?]];
    simplify_eq; auto.
Qed.

End AwsCommunityRead.

Section AwsCommunityResumed.
Context {B : Type}.
Implicit Types (session : option (SessionProxy B)) (w : World B).
Import AwsCommunity.

(** C10: a successful read hands back the very object of the request,
    after writing into it: contents and tags come from the backend's two
    answers, the ARN from the names; bucket name and key keep their
    values, and no other object of the store is touched. *)
Theorem read_handler_mutates_request_model
    session request callback_context w ev w' :
  read_handler session request callback_context w = (Ok ev, w') →
  status ev = SUCCESS →
  ∃ l sp body tag_set bk,
    desiredResourceState request = Some l ∧
    resourceModel ev = Some l ∧
    session = Some sp ∧
    get_object (client sp "s3") (default "" (BucketName (heap w l)))
               (default "" (ObjectKey (heap w l))) (backend w)
      = (Ok (mkGetObjectOutput (Ok body)), bk) ∧
    get_object_tagging (client sp "s3")
               (default "" (BucketName (heap w l)))
               (default "" (ObjectKey (heap w l))) bk
      = (Ok (mkGetObjectTaggingOutput tag_set), backend w') ∧
    heap w' l =
      {| BucketName := BucketName (heap w l);
         ObjectKey := ObjectKey (heap w l);
         ObjectContents := Some body;
         ObjectArn := Some (object_arn (default "" (BucketName (heap w l)))
                                       (default "" (ObjectKey (heap w l))));
         Tags := Some (_get_model_tags_from_tags tag_set) |} ∧
    (∀ l', l' ≠ l → heap w' l' = heap w l').
Proof.
  unfold read_handler. unfold_monad.
  destruct (desiredResourceState request) as [l|], session as [sp|];
    simpl; rewrite ?truthy_str_default; intros H Hst.
  all: repeat exec_step; simpl in *; try discriminate.
  unfold _progress_event_success in *; simpl in *; simplify_eq.
  match goal with
  | Hg : get_object _ _ _ _ = (Ok ?a, _), Hb : Body ?a = Ok _,
    Ht : get_object_tagging _ _ _ _ = (Ok ?t, _) |- _ =>
      destruct a, t; simpl in Hb; subst;
      eexists l, sp, _, _, _; repeat split; try exact Hg; try exact Ht
  end.
  - simpl. by rewrite !fn_lookup_insert.
  - intros l' Hne. simpl. by rewrite !fn_lookup_insert_ne.
Qed.

(** C1, as the code has it: a resumed create or update whose read fails
    with NotFound does not poll again; it returns FAILED with the kind
    NotFound and the read's message behind a further prefix. *)
Theorem resumed_create_update_not_found
    session request callback_context w rh w' :
  _is_callback callback_context = true →
  read_handler session request callback_context w = (Ok rh, w') →
  status rh = FAILED →
  errorCode rh = Some NotFound →
  ∃ ev,
    create_handler session request callback_context w = (Ok (Some ev), w') ∧
    update_handler session request callback_context w = (Ok (Some ev), w') ∧
    status ev = FAILED ∧
    errorCode ev = Some NotFound ∧
    message ev = "Error: " +:+ message rh.
Proof.
  intros Hcb Hread Hst Hcode.
  unfold create_handler, update_handler, _callback_helper, bind.
  rewrite Hcb, Hread, Hst, Hcode. simpl.
  eexists. repeat split.
Qed.

(** The two answers of a resumed delete: SUCCESS without a model when the
    read reports NotFound, and SUCCESS again when the read succeeds. *)
Lemma resumed_delete_outcomes
    session request callback_context w rh w' :
  _is_callback callback_context = true →
  read_handler session request callback_context w = (Ok rh, w') →
  (status rh = FAILED → errorCode rh = Some NotFound →
   ∃ ev, delete_handler session request callback_context w
           = (Ok (Some ev), w') ∧
         status ev = SUCCESS ∧
         resourceModel ev = None ∧ resourceModels ev = None) ∧
  (status rh = SUCCESS →
   ∃ ev, delete_handler session request callback_context w
           = (Ok (Some ev), w') ∧
         status ev = SUCCESS).
Proof.
  intros Hcb Hread. split.
  - intros Hst Hcode.
    unfold delete_handler, _callback_helper, bind.
    rewrite Hcb, Hread, Hst, Hcode. simpl.
    eexists. repeat split.
  - intros Hst.
    pose proof Hread as Hres.
    apply read_handler_result in Hres
      as [(l & Hl & Hev & _)|[(c & m & Hev)|Hev]]; simplify_eq.
    unfold delete_handler, _callback_helper, bind.
    rewrite Hcb, Hread, Hl. simpl.
    eexists. repeat split.
Qed.
End AwsCommunityResumed.

Import MemS3.

Lemma resumed_create_update_not_found_witness :
  ∃ rh w',
    _is_callback resumed_context = true ∧
    AwsCommunity.read_handler (session true) request0 resumed_context
      (world []) = (Ok rh, w') ∧
    status rh = FAILED ∧
    errorCode rh = Some NotFound ∧
    ∃ ev,
      AwsCommunity.create_handler (session true) request0 resumed_context
        (world []) = (Ok (Some ev), w') ∧
      AwsCommunity.update_handler (session true) request0 resumed_context
        (world []) = (Ok (Some ev), w') ∧
      status ev = FAILED ∧
      errorCode ev = Some NotFound ∧
      message ev = "Error: " +:+ message rh.
Proof.
  destruct (AwsCommunity.read_handler (session true) request0
              resumed_context (world [])) as [r w'] eqn:E.
  vm_compute in E. injection E as <- <-.
  eexists _, _. split; [reflexivity|]. split; [reflexivity|].
  split; [reflexivity|]. split; [reflexivity|].
  apply (resumed_create_update_not_found (session true) request0
           resumed_context (world [])); reflexivity.
Defined.

(** The claim of C1 fails on this run: the bucket is empty, the read of the
    resumed create reports NotFound, and the handler answers FAILED rather
    than IN_PROGRESS. *)
Lemma resumed_create_not_found_is_failed :
  let w := world [] in
  (∃ rh w', AwsCommunity.read_handler (session true) request0
              resumed_context w = (Ok rh, w') ∧
            status rh = FAILED ∧ errorCode rh = Some NotFound) ∧
  ¬ (∃ ev w', AwsCommunity.create_handler (session true) request0
                resumed_context w = (Ok (Some ev), w') ∧
              status ev = IN_PROGRESS).
Proof.
  split.
  - eexists _, _. split; [vm_compute; reflexivity|]. split; reflexivity.
  - intros (ev & w' & Hrun & Hst).
    vm_compute in Hrun. injection Hrun as <- _. discriminate Hst.
Qed.

(** On a throttled read the resumed create returns no event at all. *)
Lemma resumed_create_throttled_returns_none :
  fst (AwsCommunity.create_handler throttled_session request0
         resumed_context (world stored)) = Ok None.
Proof. vm_compute. reflexivity. Qed.

Lemma resumed_delete_outcomes_witness :
  (∃ rh w',
     _is_callback resumed_context = true ∧
     AwsCommunity.read_handler (session true) request0 resumed_context
       (world []) = (Ok rh, w') ∧
     status rh = FAILED ∧ errorCode rh = Some NotFound ∧
     ∃ ev, AwsCommunity.delete_handler (session true) request0
             resumed_context (world []) = (Ok (Some ev), w') ∧
           status ev = SUCCESS ∧
           resourceModel ev = None ∧ resourceModels ev = None) ∧
  (∃ rh w',
     _is_callback resumed_context = true ∧
     AwsCommunity.read_handler (session true) request0 resumed_context
       (world stored) = (Ok rh, w') ∧
     status rh = SUCCESS ∧
     ∃ ev, AwsCommunity.delete_handler (session true) request0
             resumed_context (world stored) = (Ok (Some ev), w') ∧
           status ev = SUCCESS).
Proof.
  split.
  - destruct (AwsCommunity.read_handler (session true) request0
                resumed_context (world [])) as [r w'] eqn:E.
    pose proof E as E'. vm_compute in E. injection E as <- <-.
    eexists _, _. do 4 (split; [reflexivity|]).
    apply (proj1 (resumed_delete_outcomes (session true) request0
                    resumed_context (world []) _ _ eq_refl E'));
      reflexivity.
  - destruct (AwsCommunity.read_handler (session true) request0
                resumed_context (world stored)) as [r w'] eqn:E.
    pose proof E as E'. vm_compute in E. injection E as <- <-.
    eexists _, _. do 3 (split; [reflexivity|]).
    apply (proj2 (resumed_delete_outcomes (session true) request0
                    resumed_context (world stored) _ _ eq_refl E'));
      reflexivity.
Defined.

(** C2: the resumed delete of an object that is still stored.  The read
    succeeds, and the handler does not poll again: it returns SUCCESS,
    and with the request's model attached, where the helper's own comment
    says that a delete response must not contain a model.  Two reads were
    made and the object is still in the bucket. *)
Theorem resumed_delete_present_returns_model :
  let w := world stored in
  let r := AwsCommunity.delete_handler (session true) request0
             resumed_context w in
  _is_callback resumed_context = true ∧
  (∃ rh w', AwsCommunity.read_handler (session true) request0
              resumed_context w = (Ok rh, w') ∧ status rh = SUCCESS) ∧
  (∃ ev, fst r = Ok (Some ev) ∧
         status ev = SUCCESS ∧ status ev ≠ IN_PROGRESS ∧
         resourceModel ev = Some 0%nat) ∧
  calls (snd r) = [GetObject "bkt" "k.txt"; GetObjectTagging "bkt" "k.txt"] ∧
  backend (snd r) = stored ∧
  MemS3.find "bkt" "k.txt" (backend (snd r))
    = Some (mkObj "bkt" "k.txt" "hello" [("team", "infra")]).
Proof.
  split; [reflexivity|]. split; [|split].
  - eexists _, _. split; [vm_compute; reflexivity|reflexivity].
  - eexists. split; [vm_compute; reflexivity|].
    split; [reflexivity|]. split; [discriminate|reflexivity].
  - repeat split.
Qed.

Lemma read_handler_mutates_request_model_witness :
  ∃ ev w',
    AwsCommunity.read_handler (session true) request0 fresh_context
      (world stored) = (Ok ev, w') ∧
    status ev = SUCCESS ∧
    ∃ l sp body tag_set bk,
      desiredResourceState request0 = Some l ∧
      resourceModel ev = Some l ∧
      session true = Some sp ∧
      get_object (client sp "s3")
                 (default "" (BucketName (heap (world stored) l)))
                 (default "" (ObjectKey (heap (world stored) l)))
                 (backend (world stored))
        = (Ok (mkGetObjectOutput (Ok body)), bk) ∧
      get_object_tagging (client sp "s3")
                 (default "" (BucketName (heap (world stored) l)))
                 (default "" (ObjectKey (heap (world stored) l))) bk
        = (Ok (mkGetObjectTaggingOutput tag_set), backend w') ∧
      heap w' l =
        {| BucketName := BucketName (heap (world stored) l);
           ObjectKey := ObjectKey (heap (world stored) l);
           ObjectContents := Some body;
           ObjectArn :=
             Some (object_arn
                     (default "" (BucketName (heap (world stored) l)))
                     (default "" (ObjectKey (heap (world stored) l))));
           Tags := Some (AwsCommunity._get_model_tags_from_tags tag_set) |} ∧
      (∀ l', l' ≠ l → heap w' l' = heap (world stored) l').
Proof.
  destruct (AwsCommunity.read_handler (session true) request0
              fresh_context (world stored)) as [r w'] eqn:E.
  pose proof E as E'. vm_compute in E. injection E as <- <-.
  eexists _, _. split; [reflexivity|]. split; [reflexivity|].
  exact (read_handler_mutates_request_model _ _ _ _ _ _ E' eq_refl).
Defined.

(** The run behind it, spelled out: the request's object before and after
    a successful read. *)
Lemma read_handler_run :
  let r := AwsCommunity.read_handler (session true) request0 fresh_context
             (world stored) in
  heap (world stored) 0%nat = model0 ∧
  (∃ ev, fst r = Ok ev ∧ status ev = SUCCESS ∧ resourceModel ev = Some 0%nat) ∧
  heap (snd r) 0%nat =
    {| BucketName := Some "bkt"; ObjectKey := Some "k.txt";
       ObjectContents := Some "hello";
       ObjectArn := Some "arn:aws:s3:::bkt/k.txt";
       Tags := Some [mkTag "team" "infra"] |}.
Proof.
  split; [reflexivity|]. split.
  - eexists. split; [vm_compute; reflexivity|]. split; reflexivity.
  - vm_compute. reflexivity.
Qed.

(** ** Fresh invocations *)

Lemma upload_params_inv (m : ResourceModel) (request : ResourceHandlerRequest)
    (p : S3Params) :
  AwsCommunity._upload_s3_helper (Some m) request = Ok p →
  BucketName m = Some (p_Bucket p) ∧ ObjectKey m = Some (p_Key p) ∧
  ObjectContents m = Some (p_Body p) ∧
  p_Bucket p ≠ "" ∧ p_Key p ≠ "" ∧ p_Body p ≠ "".
Proof.
  unfold AwsCommunity._upload_s3_helper.
  destruct (BucketName m) as [[|]|], (ObjectKey m) as [[|]|],
    (ObjectContents m) as [[|]|]; simpl;
    destruct (truthy_list (Tags m));
    try destruct (AwsCommunity._build_tag_list _ _);
    intros H; simplify_eq; simpl; repeat split; done.
Qed.

Section AwsCommunityFresh.
Context {B : Type}.
Implicit Types (session : option (SessionProxy B)) (w : World B).
Import AwsCommunity.

(** A fresh create or update whose write is acknowledged: one
    [put_object] call, the ARN written into the request's object, and
    the callback event. *)
Lemma fresh_upload_in_progress
    (sp : SessionProxy B) request callback_context w l p resp bk :
  _is_callback callback_context = false →
  desiredResourceState request = Some l →
  _upload_s3_helper (Some (heap w l)) request = Ok p →
  put_object (client sp "s3") (p_Bucket p) (p_Key p) (p_Body p) (p_Tags p)
             (backend w) = (Ok (Some resp), bk) →
  ∃ w',
    create_handler (Some sp) request callback_context w
      = (Ok (Some (_progress_event_callback (Some l))), w') ∧
    update_handler (Some sp) request callback_context w
      = (Ok (Some (_progress_event_callback (Some l))), w') ∧
    calls w' = calls w ++ [PutObject (p_Bucket p) (p_Key p) (p_Body p)
                                     (p_Tags p)] ∧
    backend w' = bk ∧
    heap w' l = set_ObjectArn (Some (object_arn (p_Bucket p) (p_Key p)))
                              (heap w l) ∧
    (∀ l', l' ≠ l → heap w' l' = heap w l').
Proof.
  intros Hcb Hl Hp Hput.
  destruct (upload_params_inv _ _ _ Hp) as (Hb & Hk & _).
  unfold create_handler, update_handler, upload, _put_object.
  rewrite Hcb, Hl. unfold_monad. simpl. rewrite Hp. simpl.
  rewrite Hput. simpl. rewrite Hb, Hk. simpl.
  eexists. repeat split; simpl.
  - by rewrite fn_lookup_insert.
  - intros l' Hne. by rewrite fn_lookup_insert_ne.
Qed.
End AwsCommunityFresh.

(** C3, as the code has it: when the acknowledgment of the put has no
    version identifier, a fresh create neither returns SUCCESS nor returns
    FAILED.  The aws_s3_object handler raises ["File Failed to upload"]
    out of the handler; the awscommunity handler does not look at the
    version identifier and returns IN_PROGRESS with the callback context. *)
Theorem fresh_create_without_version_id {B : Type}
    (sp : SessionProxy B) (request : ResourceHandlerRequest)
    (callback_context : gmap string string) (w : World B) (l : loc) :
  _is_callback callback_context = false →
  desiredResourceState request = Some l →
  (∀ p resp bk,
     AwsS3Object._upload_s3_helper (Some (heap w l)) request = Some p →
     put_object (client sp "s3") (p_Bucket p) (p_Key p) (p_Body p) None
                (backend w) = (Ok (Some resp), bk) →
     VersionId resp = None →
     AwsS3Object.create_handler (Some sp) request callback_context w
     = (Raise (PyException "File Failed to upload"),
        mkWorld (heap w) bk
                (calls w ++ [PutObject (p_Bucket p) (p_Key p) (p_Body p)
                                       None]))) ∧
  (∀ p resp bk,
     AwsCommunity._upload_s3_helper (Some (heap w l)) request = Ok p →
     put_object (client sp "s3") (p_Bucket p) (p_Key p) (p_Body p) (p_Tags p)
                (backend w) = (Ok (Some resp), bk) →
     VersionId resp = None →
     ∃ ev w',
       AwsCommunity.create_handler (Some sp) request callback_context w
       = (Ok (Some ev), w') ∧
       status ev = IN_PROGRESS ∧
       callbackContext ev = Some CALLBACK_STATUS_IN_PROGRESS).
Proof.
  intros Hcb Hl. split.
  - intros p resp bk Hp Hput Hv.
    unfold AwsS3Object.create_handler, AwsS3Object.upload,
      AwsS3Object._put_object.
    rewrite Hcb, Hl. unfold_monad.
    change (heap w <$> Some l) with (Some (heap w l)).
    cbv beta iota. rewrite Hp. simpl. rewrite Hput. simpl.
    rewrite Hv. reflexivity.
  - intros p resp bk Hp Hput _.
    destruct (fresh_upload_in_progress sp request callback_context w l p
                resp bk Hcb Hl Hp Hput) as (w' & Hc & _).
    eexists _, w'. split; [exact Hc|]. split; reflexivity.
Qed.

Lemma fresh_create_without_version_id_witness :
  _is_callback fresh_context = false ∧
  desiredResourceState request0 = Some 0%nat ∧
  AwsS3Object.create_handler (session false) request0 fresh_context
    (world [])
  = (Raise (PyException "File Failed to upload"),
     mkWorld heap0 [mkObj "bkt" "k.txt" "hello" []]
             [PutObject "bkt" "k.txt" "hello" None]) ∧
  ∃ ev w',
    AwsCommunity.create_handler (session false) request0 fresh_context
      (world []) = (Ok (Some ev), w') ∧
    status ev = IN_PROGRESS ∧
    callbackContext ev = Some CALLBACK_STATUS_IN_PROGRESS.
Proof.
  split; [reflexivity|]. split; [reflexivity|].
  pose proof (fresh_create_without_version_id
                (mkSessionProxy state (fun _ => s3 false)) request0
                fresh_context (world []) 0%nat eq_refl eq_refl) as [Ha Hb].
  split.
  - exact (Ha (mkS3Params "bkt" "k.txt" "hello" None)
              (mkPutObjectOutput None) _ eq_refl eq_refl eq_refl).
  - exact (Hb (mkS3Params "bkt" "k.txt" "hello" None)
              (mkPutObjectOutput None) _ eq_refl eq_refl eq_refl).
Defined.

(** The claim of C3 fails on this run: the bucket acknowledges the put
    without a version identifier and neither handler returns FAILED. *)
Lemma fresh_create_without_version_id_not_failed :
  let w := world [] in
  (∃ bk, put_object (s3 false) "bkt" "k.txt" "hello" None (backend w)
         = (Ok (Some (mkPutObjectOutput None)), bk)) ∧
  ¬ (∃ ev w', AwsS3Object.create_handler (session false) request0
                fresh_context w = (Ok (Some ev), w') ∧
              status ev = FAILED) ∧
  ¬ (∃ ev w', AwsCommunity.create_handler (session false) request0
                fresh_context w = (Ok (Some ev), w') ∧
              status ev = FAILED).
Proof.
  split; [eexists; reflexivity|]. split.
  - intros (ev & w' & Hrun & _). vm_compute in Hrun. discriminate Hrun.
  - intros (ev & w' & Hrun & Hst).
    vm_compute in Hrun. injection Hrun as <- _. discriminate Hst.
Qed.

(** C4: the fresh update of the aws_s3_object file.  With an empty callback
    context and a bucket that would accept the write, the handler makes no
    backend call, leaves the ARN unset and returns SUCCESS with neither a
    callback context nor a delay. *)
Theorem fresh_update_skips_write :
  let r := AwsS3Object.update_handler (session true) request0 fresh_context
             (world []) in
  _is_callback fresh_context = false ∧
  (∃ ev, fst r = Ok (Some ev) ∧ status ev = SUCCESS ∧
         callbackContext ev = None ∧ callbackDelaySeconds ev = 0) ∧
  calls (snd r) = [] ∧
  backend (snd r) = [] ∧
  ObjectArn (heap (snd r) 0%nat) = None.
Proof.
  split; [reflexivity|]. split.
  - eexists. split; [vm_compute; reflexivity|]. repeat split.
  - repeat split.
Qed.

(** The same request through the aws_s3_object create and through the
    awscommunity update does what C4 says. *)
Lemma fresh_write_siblings :
  let ok (r : Res (option ProgressEvent) * World state) :=
    (∃ ev, fst r = Ok (Some ev) ∧ status ev = IN_PROGRESS ∧
           callbackContext ev = Some CALLBACK_STATUS_IN_PROGRESS ∧
           callbackDelaySeconds ev = 5) ∧
    calls (snd r) = [PutObject "bkt" "k.txt" "hello" None] ∧
    ObjectArn (heap (snd r) 0%nat) = Some "arn:aws:s3:::bkt/k.txt" in
  ok (AwsS3Object.create_handler (session true) request0 fresh_context
        (world [])) ∧
  ok (AwsCommunity.update_handler (session true) request0 fresh_context
        (world [])) ∧
  ok (AwsCommunity.create_handler (session true) request0 fresh_context
        (world [])).
Proof.
  repeat split; try (eexists; split; [vm_compute; reflexivity|]; repeat split).
Qed.

(** In the aws_s3_object file no fresh update ever reaches the backend. *)
Lemma fresh_update_never_writes {B : Type} (session : option (SessionProxy B))
    (request : ResourceHandlerRequest) (callback_context : gmap string string)
    (w : World B) :
  _is_callback callback_context = false →
  snd (AwsS3Object.update_handler session request callback_context w) = w.
Proof.
  intros Hcb. unfold AwsS3Object.update_handler. rewrite Hcb. simpl.
  unfold AwsS3Object._callback_helper, AwsS3Object.read_handler.
  unfold_monad. simpl.
  destruct (desiredResourceState request); reflexivity.
Qed.

(** ** Listing *)

Lemma success_list_flag (models : option (list ResourceModel)) :
  _progress_event_success None models false true
  = Ok {| status := SUCCESS; errorCode := None; message := "";
          callbackContext := None; callbackDelaySeconds := 0;
          resourceModel := None; resourceModels := models;
          nextToken := None |}.
Proof. unfold _progress_event_success. by destruct (truthy_list models). Qed.

Section AwsCommunityList.
Context {B : Type}.
Implicit Types (session : option (SessionProxy B)) (w : World B).
Import AwsCommunity.

(** C8: when the listing of the model's bucket comes back without
    objects, the list handler returns SUCCESS with an empty model list
    (and no error code). *)
Theorem list_handler_empty_bucket
    (sp : SessionProxy B) request callback_context w l b resp bk :
  desiredResourceState request = Some l →
  BucketName (heap w l) = Some b →
  b ≠ "" →
  list_objects_v2 (client sp "s3") b (backend w) = (Ok resp, bk) →
  Contents resp = None ∨ Contents resp = Some [] →
  ∃ ev,
    list_handler (Some sp) request callback_context w
      = (Ok ev, mkWorld (heap w) bk (calls w ++ [ListObjectsV2 b])) ∧
    status ev = SUCCESS ∧
    errorCode ev = None ∧
    resourceModels ev = Some [] ∧
    resourceModel ev = None.
Proof.
  intros Hl Hb Hne Hlist Hempty.
  unfold list_handler. rewrite Hl. unfold_monad. simpl. rewrite Hb.
  destruct b as [|c b]; [done|]. simpl. rewrite Hlist.
  destruct Hempty as [-> | ->]; simpl; eexists; repeat split.
Qed.

(** What the list handler returns, whatever the listing. *)
Lemma list_handler_run_ok session request callback_context w res w' :
  list_handler session request callback_context w = (res, w') →
  heap w' = heap w ∧
  ∀ ev, res = Ok ev → attached_ok (heap w) ev.
Proof.
  unfold list_handler. unfold_monad.
  destruct (desiredResourceState request) as [l|], session as [sp|];
    simpl; intros H.
  all: repeat exec_step; simpl in *.
  all: rewrite ?success_list_flag in *; simplify_eq.
  all: split; [reflexivity|]; intros ev Hev; simplify_eq.
  all: split; [intros ? ?; simplify_eq|]; simpl.
  all: intros ms m Hms Hm; simplify_eq.
  all: try (apply list_elem_of_fmap in Hm as (content & -> & _);
            reflexivity).
  all: try by apply not_elem_of_nil in Hm.
Qed.
End AwsCommunityList.

Lemma list_handler_empty_bucket_witness :
  desiredResourceState request0 = Some 0%nat ∧
  BucketName (heap (world []) 0%nat) = Some "bkt" ∧
  "bkt" ≠ "" ∧
  list_objects_v2 (s3 true) "bkt" (backend (world []))
    = (Ok (mkListObjectsV2Output None), []) ∧
  ∃ ev,
    AwsCommunity.list_handler (session true) request0 fresh_context (world [])
      = (Ok ev, mkWorld heap0 [] [ListObjectsV2 "bkt"]) ∧
    status ev = SUCCESS ∧
    errorCode ev = None ∧
    resourceModels ev = Some [] ∧
    resourceModel ev = None.
Proof.
  split; [reflexivity|]. split; [reflexivity|]. split; [discriminate|].
  split; [reflexivity|].
  apply (list_handler_empty_bucket
           (mkSessionProxy state (fun _ => s3 true)) request0 fresh_context
           (world []) 0%nat "bkt" (mkListObjectsV2Output None) []);
    try reflexivity; [discriminate | by left].
Defined.

(** A listing with objects: one model per key, each with its ARN. *)
Lemma list_handler_stored_run :
  fst (AwsCommunity.list_handler (session true) request0 fresh_context
         (world stored))
  = Ok {| status := SUCCESS; errorCode := None; message := "";
          callbackContext := None; callbackDelaySeconds := 0;
          resourceModel := None;
          resourceModels :=
            Some [ {| BucketName := Some "bkt"; ObjectKey := Some "k.txt";
                      ObjectContents := None;
                      ObjectArn := Some "arn:aws:s3:::bkt/k.txt";
                      Tags := None |} ];
          nextToken := None |}.
Proof. vm_compute. reflexivity. Qed.

(** ** The ARN across the handlers *)

Lemma attached_ok_failed (h : loc → ResourceModel) (code : HandlerErrorCode)
    (msg : string) :
  attached_ok h (_progress_event_failed code msg).
Proof. split; simpl; intros; simplify_eq. Qed.

Lemma attached_ok_plain (h : loc → ResourceModel) (st : OperationStatus) :
  attached_ok h (ProgressEvent_new st).
Proof. split; simpl; intros; simplify_eq. Qed.

Section AwsCommunityArn.
Context {B : Type}.
Implicit Types (session : option (SessionProxy B)) (w : World B).
Import AwsCommunity.

Lemma callback_helper_run_ok session request callback_context
    (is_delete_handler : bool) w :
  run_ok w (_callback_helper session request callback_context
              (desiredResourceState request) is_delete_handler w).
Proof.
  unfold run_ok, _callback_helper, bind.
  destruct (read_handler session request callback_context w)
    as [res w1] eqn:Hr.
  pose proof (read_handler_arn_step _ _ _ _ _ _ Hr) as Hstep.
  destruct (read_handler_result _ _ _ _ _ _ Hr)
    as [(l & Hl & -> & Harn)|[(c & m & ->) | -> ]]; simpl.
  - rewrite Hl. simpl. split; [done|].
    split; simpl; intros; simplify_eq; done.
  - destruct c, is_delete_handler; simpl; (split; [done|]); try done;
      first [apply attached_ok_failed | apply attached_ok_plain].
  - done.
Qed.

Lemma upload_run_ok session request w :
  run_ok w (upload session request (desiredResourceState request) w).
Proof.
  destruct (upload session request (desiredResourceState request) w)
    as [res w'] eqn:H.
  unfold run_ok. simpl. revert H.
  unfold upload, _put_object. unfold_monad.
  destruct (desiredResourceState request) as [l|], session as [sp|];
    cbn [fmap option_fmap option_map _get_session_client].
  all: destruct (_upload_s3_helper _ request) as [p|e] eqn:Hp.
  all: intros H; repeat exec_step; simpl in *.
  all: try (split; [apply arn_step_refl|]).
  all: try apply attached_ok_failed.
  all: try done.
  destruct (upload_params_inv _ _ _ Hp) as (Hb & Hk & _).
  rewrite Hb, Hk. simpl. split.
  - apply arn_step_insert; simpl; auto.
    right. unfold arn_of. simpl. by rewrite Hb, Hk.
  - split; simpl; intros; simplify_eq.
    rewrite fn_lookup_insert. unfold arn_of. simpl. by rewrite Hb, Hk.
Qed.

Lemma delete_fresh_run_ok session request callback_context w :
  run_ok w (delete_handler session request callback_context w).
Proof.
  unfold delete_handler.
  destruct (_is_callback callback_context);
    [apply callback_helper_run_ok|].
  match goal with |- run_ok w ?r => destruct r as [res w'] eqn:H end.
  unfold run_ok. simpl. revert H. unfold_monad.
  destruct (read_handler session request callback_context w)
    as [rh w1] eqn:Hr.
  pose proof (read_handler_arn_step _ _ _ _ _ _ Hr) as Hstep.
  intros H. repeat exec_step; simpl in *.
  all: split; [done|].
  all: first [apply attached_ok_failed | apply attached_ok_plain | done].
Qed.

(** Every run of the five handlers is in order. *)
Lemma handlers_run_ok session request callback_context w :
  run_ok w (create_handler session request callback_context w) ∧
  run_ok w (update_handler session request callback_context w) ∧
  run_ok w (returned (read_handler session request callback_context w)) ∧
  run_ok w (returned (list_handler session request callback_context w)) ∧
  run_ok w (delete_handler session request callback_context w).
Proof.
  split; [|split; [|split; [|split]]].
  - unfold create_handler.
    destruct (_is_callback callback_context);
      [apply callback_helper_run_ok | apply upload_run_ok].
  - unfold update_handler.
    destruct (_is_callback callback_context);
      [apply callback_helper_run_ok | apply upload_run_ok].
  - destruct (read_handler session request callback_context w)
      as [res w'] eqn:Hr.
    unfold run_ok, returned. simpl.
    split; [by eapply read_handler_arn_step|].
    destruct (read_handler_result _ _ _ _ _ _ Hr)
      as [(l & Hl & -> & Harn)|[(c & m & ->) | -> ]]; simpl; try done.
    all: first [apply attached_ok_failed
               | split; simpl; intros; simplify_eq; done].
  - destruct (list_handler session request callback_context w)
      as [res w'] eqn:Hr.
    destruct (list_handler_run_ok _ _ _ _ _ _ Hr) as [Hh Hev].
    unfold run_ok, returned. simpl. rewrite Hh.
    split; [apply arn_step_refl|].
    destruct res; [by apply Hev | done].
  - apply delete_fresh_run_ok.
Qed.

(** C9: on every run of create, update, read, list (and delete), no
    object of the store changes its bucket name or key, an ARN that
    changes is set to the string ["arn:aws:s3:::"], the bucket name, ["/"]
    and the key of the same object, and every model carried by the
    returned event, single or in the list, has exactly that string as its
    ARN (a name that is unset stands for the empty string). *)
Theorem object_arn_invariant session request callback_context w :
  let arn (m : ResourceModel) : option string :=
    Some ("arn:aws:s3:::" +:+ default "" (BucketName m)
          +:+ "/" +:+ default "" (ObjectKey m)) in
  let kept (w' : World B) : Prop :=
    ∀ l, BucketName (heap w' l) = BucketName (heap w l) ∧
         ObjectKey (heap w' l) = ObjectKey (heap w l) ∧
         (ObjectArn (heap w' l) = ObjectArn (heap w l)
          ∨ ObjectArn (heap w' l) = arn (heap w' l)) in
  let carried (w' : World B) (ev : ProgressEvent) : Prop :=
    (∀ l, resourceModel ev = Some l →
          ObjectArn (heap w' l) = arn (heap w' l)) ∧
    (∀ ms m, resourceModels ev = Some ms → m ∈ ms → ObjectArn m = arn m) in
  let ok (r : Res (option ProgressEvent) * World B) : Prop :=
    kept (snd r) ∧
    match fst r with
    | Ok (Some ev) => carried (snd r) ev
    | _ => True
    end in
  ok (create_handler session request callback_context w) ∧
  ok (update_handler session request callback_context w) ∧
  ok (returned (read_handler session request callback_context w)) ∧
  ok (returned (list_handler session request callback_context w)) ∧
  ok (delete_handler session request callback_context w).
Proof.
  exact (handlers_run_ok session request callback_context w).
Qed.
End AwsCommunityArn.

Lemma object_arn_invariant_witness :
  (∃ ev w',
     AwsCommunity.read_handler (session true) request0 fresh_context
       (world stored) = (Ok ev, w') ∧
     resourceModel ev = Some 0%nat ∧
     BucketName (heap w' 0%nat) = Some "bkt" ∧
     ObjectKey (heap w' 0%nat) = Some "k.txt" ∧
     ObjectArn (heap w' 0%nat) = Some "arn:aws:s3:::bkt/k.txt") ∧
  (∃ ev w',
     AwsCommunity.create_handler (session true) request0 fresh_context
       (world []) = (Ok (Some ev), w') ∧
     resourceModel ev = Some 0%nat ∧
     ObjectArn (heap w' 0%nat) = Some "arn:aws:s3:::bkt/k.txt") ∧
  (∃ ev w' m,
     AwsCommunity.list_handler (session true) request0 fresh_context
       (world stored) = (Ok ev, w') ∧
     resourceModels ev = Some [m] ∧
     BucketName m = Some "bkt" ∧ ObjectKey m = Some "k.txt" ∧
     ObjectArn m = Some "arn:aws:s3:::bkt/k.txt").
Proof.
  split; [|split].
  - pose proof (object_arn_invariant (session true) request0 fresh_context
                  (world stored)) as (_ & _ & [_ Hread] & _).
    destruct (AwsCommunity.read_handler (session true) request0
                fresh_context (world stored)) as [r w'] eqn:E.
    assert (Hr : r = Ok {| status := SUCCESS; errorCode := None;
                           message := ""; callbackContext := None;
                           callbackDelaySeconds := 0;
                           resourceModel := Some 0%nat;
                           resourceModels := None; nextToken := None |}
                 ∧ BucketName (heap w' 0%nat) = Some "bkt"
                 ∧ ObjectKey (heap w' 0%nat) = Some "k.txt").
    { vm_compute in E. injection E as <- <-. repeat split. }
    destruct Hr as (-> & Hb & Hk).
    eexists _, w'. split; [reflexivity|]. split; [reflexivity|].
    split; [exact Hb|]. split; [exact Hk|].
    destruct Hread as [Hone _]. simpl in Hone.
    rewrite (Hone 0%nat eq_refl), Hb, Hk. reflexivity.
  - pose proof (object_arn_invariant (session true) request0 fresh_context
                  (world [])) as ([_ Hcreate] & _).
    destruct (AwsCommunity.create_handler (session true) request0
                fresh_context (world [])) as [r w'] eqn:E.
    assert (Hr : r = Ok (Some (_progress_event_callback (Some 0%nat)))
                 ∧ BucketName (heap w' 0%nat) = Some "bkt"
                 ∧ ObjectKey (heap w' 0%nat) = Some "k.txt").
    { vm_compute in E. injection E as <- <-. repeat split. }
    destruct Hr as (-> & Hb & Hk).
    eexists _, w'. split; [reflexivity|]. split; [reflexivity|].
    destruct Hcreate as [Hone _]. simpl in Hone.
    rewrite (Hone 0%nat eq_refl), Hb, Hk. reflexivity.
  - pose proof (object_arn_invariant (session true) request0 fresh_context
                  (world stored)) as (_ & _ & _ & [_ Hlist] & _).
    destruct (AwsCommunity.list_handler (session true) request0
                fresh_context (world stored)) as [r w'] eqn:E.
    pose proof list_handler_stored_run as Hrun. rewrite E in Hrun.
    simpl in Hrun. subst r.
    destruct Hlist as [_ Hmany]. simpl in Hmany.
    eexists _, w', _. split; [reflexivity|]. split; [reflexivity|].
    split; [reflexivity|]. split; [reflexivity|].
    rewrite (Hmany _ _ eq_refl (list_elem_of_here _ _)). reflexivity.
Defined.

(** One run of each kind, with the ARN read off the resulting store. *)
Lemma object_arn_runs :
  ObjectArn (heap (snd (AwsCommunity.create_handler (session true) request0
                          fresh_context (world []))) 0%nat)
    = Some "arn:aws:s3:::bkt/k.txt" ∧
  ObjectArn (heap (snd (AwsCommunity.read_handler (session true) request0
                          fresh_context (world stored))) 0%nat)
    = Some "arn:aws:s3:::bkt/k.txt" ∧
  arn_of model0 = "arn:aws:s3:::bkt/k.txt".
Proof. repeat split; vm_compute; reflexivity. Qed.

(** ** The ARN in the aws_s3_object file *)

(** There too the only write to [ObjectArn] uses the names of the object
    it is written to; the stub read hands models back as they came. *)
Lemma aws_s3_object_arn_step {B : Type} (session : option (SessionProxy B))
    (request : ResourceHandlerRequest) (callback_context : gmap string string)
    (w : World B) :
  arn_step (heap w)
    (heap (snd (AwsS3Object.create_handler session request
                  callback_context w))) ∧
  arn_step (heap w)
    (heap (snd (AwsS3Object.update_handler session request
                  callback_context w))).
Proof.
  assert (Hup : ∀ res w',
             AwsS3Object.upload session request
               (desiredResourceState request) w = (res, w') →
             arn_step (heap w) (heap w')).
  { intros res w'. unfold AwsS3Object.upload, AwsS3Object._put_object,
      AwsS3Object._upload_s3_helper.
    unfold_monad.
    destruct (desiredResourceState request) as [l|], session as [sp|];
      simpl; intros H; repeat exec_step; simpl in *;
      try apply arn_step_refl.
    all: apply arn_step_insert; simpl; auto.
    all: right; unfold arn_of; simpl.
    all: repeat match goal with
           | H : _ && _ = true |- _ => apply andb_prop in H as [? ?]
           end.
    all: by rewrite !truthy_str_py_str. }
  assert (Hcb : ∀ del,
             heap (snd (AwsS3Object._callback_helper session request
                          callback_context (desiredResourceState request)
                          del w)) = heap w).
  { intros del. unfold AwsS3Object._callback_helper,
      AwsS3Object.read_handler. unfold_monad. simpl.
    by destruct (desiredResourceState request). }
  unfold AwsS3Object.create_handler, AwsS3Object.update_handler.
  destruct (_is_callback callback_context); simpl; rewrite ?Hcb.
  all: split; try apply arn_step_refl.
  all: unfold bind, AwsS3Object.read_handler, ret.
  all: destruct (AwsS3Object.upload session request
                   (desiredResourceState request) w) as [[[]|e] w1] eqn:Hu;
    simpl; by eapply Hup.
Qed.

(** The stub read of that file returns the request's model untouched,
    whatever ARN it carries. *)
Lemma aws_s3_object_read_is_identity {B : Type}
    (session : option (SessionProxy B)) (request : ResourceHandlerRequest)
    (callback_context : gmap string string) (w : World B) :
  ∃ ev, AwsS3Object.read_handler session request callback_context w
        = (Ok ev, w) ∧
        status ev = SUCCESS ∧
        resourceModel ev = desiredResourceState request.
Proof. eexists. repeat split. Qed.

(** * Further properties of the awscommunity handlers *)

(** ** Upload parameters *)

Lemma model_tags_as_map (model_tags : list Tag) :
  AwsCommunity._get_tags_from_model_tags model_tags
  = map (fun t => Key t +:+ "=" +:+ Value t) model_tags.
Proof.
  unfold AwsCommunity._get_tags_from_model_tags.
  enough (Hfold : ∀ (ts : list Tag) (acc : list string),
             fold_left (fun tags model_tag =>
                          tags ++ [Key model_tag +:+ "=" +:+ Value model_tag])
                       ts acc
             = acc ++ map (fun t => Key t +:+ "=" +:+ Value t) ts)
    by apply (Hfold model_tags []).
  induction ts as [|t ts IH]; intros acc; simpl.
  - by rewrite app_nil_r.
  - rewrite IH. by rewrite <- app_assoc.
Qed.

(** X1: whenever the upload parameters get built, their tagging string is
    made of the model's own tags alone, each as [Key=Value], joined by
    [&] in order (absent without model tags); a request with stack tags
    never gets parameters with a tagging string. *)
Theorem upload_params_tagging (m : ResourceModel)
    (request : ResourceHandlerRequest) (p : S3Params) :
  AwsCommunity._upload_s3_helper (Some m) request = Ok p →
  p_Tags p =
    (if truthy_list (Tags m)
     then Some (join_amp (map (fun t => Key t +:+ "=" +:+ Value t)
                              (default [] (Tags m))))
     else None) ∧
  (truthy_list (desiredResourceTags request) = true → p_Tags p = None).
Proof.
  unfold AwsCommunity._upload_s3_helper, AwsCommunity._build_tag_list.
  destruct (truthy_str (BucketName m) && truthy_str (ObjectKey m)
            && truthy_str (ObjectContents m)),
    (truthy_list (Tags m)) eqn:Ht,
    (truthy_list (desiredResourceTags request)) eqn:Hs; simpl;
    rewrite ?desired_tags_always_raise, ?model_tags_as_map;
    intros H; simplify_eq; simpl; split; done.
Qed.

Lemma upload_params_tagging_witness :
  let m := set_Tags (Some [mkTag "team" "infra"; mkTag "env" "prod"])
                    MemS3.model0 in
  let request := mkRequest (Some 0%nat) None None in
  let p := mkS3Params "bkt" "k.txt" "hello" (Some "team=infra&env=prod") in
  AwsCommunity._upload_s3_helper (Some m) request = Ok p ∧
  p_Tags p = Some "team=infra&env=prod".
Proof.
  split; [reflexivity|].
  exact (proj1 (upload_params_tagging
                  (set_Tags (Some [mkTag "team" "infra"; mkTag "env" "prod"])
                            MemS3.model0)
                  (mkRequest (Some 0%nat) None None) _ eq_refl)).
Defined.

(** The helper raises for an unassigned local only. *)
Lemma upload_params_raise (model : option ResourceModel)
    (request : ResourceHandlerRequest) (e : exn) :
  AwsCommunity._upload_s3_helper model request = Raise e →
  ∃ var, e = UnboundLocalError var.
Proof.
  unfold AwsCommunity._upload_s3_helper, AwsCommunity._build_tag_list.
  destruct model as [m|]; simpl; [|intros H; simplify_eq; eauto].
  destruct (truthy_str (BucketName m) && truthy_str (ObjectKey m)
            && truthy_str (ObjectContents m)),
    (truthy_list (Tags m)),
    (truthy_list (desiredResourceTags request)); simpl;
    rewrite ?desired_tags_always_raise;
    intros H; simplify_eq; eauto.
Qed.

(** ** Fresh create and update *)

Section AwsCommunityFreshEdges.
Context {B : Type}.
Implicit Types (session : option (SessionProxy B)) (w : World B).
Import AwsCommunity.

(** What the fresh path comes to, whatever happens. *)
Lemma upload_returns session request model w :
  ∃ ev w', upload session request model w = (Ok (Some ev), w') ∧
           (status ev = IN_PROGRESS ∨ status ev = FAILED) ∧ event_ok ev.
Proof.
  destruct (upload session request model w) as [res w'] eqn:H.
  revert H. unfold upload, _put_object. unfold_monad.
  destruct model as [l|], session as [sp|];
    cbn [fmap option_fmap option_map _get_session_client].
  all: destruct (_upload_s3_helper _ request) as [p|e] eqn:Hp.
  all: intros H; repeat exec_step; simpl in *.
  all: eexists _, _; split; [reflexivity|]; simpl.
  all: split; [auto|].
  all: unfold event_ok; simpl; repeat split; eauto.
Qed.

(** X2: a fresh create or update never raises and never returns [None]
    or SUCCESS: it returns one well-formed event that is IN_PROGRESS or
    FAILED, and update returns exactly what create returns. *)
Theorem fresh_create_update_returns session request callback_context w :
  _is_callback callback_context = false →
  ∃ ev w',
    create_handler session request callback_context w = (Ok (Some ev), w') ∧
    update_handler session request callback_context w = (Ok (Some ev), w') ∧
    (status ev = IN_PROGRESS ∨ status ev = FAILED) ∧
    event_ok ev.
Proof.
  intros Hcb. unfold create_handler, update_handler. rewrite Hcb.
  destruct (upload_returns session request (desiredResourceState request) w)
    as (ev & w' & Hrun & Hst & Hok).
  by exists ev, w'.
Qed.

(** X3: when the put raises, a fresh create or update returns FAILED: a
    ClientError gives the kind its code classifies to, anything else
    InternalFailure, the message being the error's text behind
    ["Error: "].  The call is the only one made and the store, ARN
    included, is left as it was. *)
Theorem fresh_write_put_raises
    (sp : SessionProxy B) request callback_context w l p e bk :
  _is_callback callback_context = false →
  desiredResourceState request = Some l →
  _upload_s3_helper (Some (heap w l)) request = Ok p →
  put_object (client sp "s3") (p_Bucket p) (p_Key p) (p_Body p) (p_Tags p)
             (backend w) = (Raise e, bk) →
  let w' := mkWorld (heap w) bk
              (calls w ++ [PutObject (p_Bucket p) (p_Key p) (p_Body p)
                                     (p_Tags p)]) in
  create_handler (Some sp) request callback_context w
    = (Ok (Some (failure_of e)), w') ∧
  update_handler (Some sp) request callback_context w
    = (Ok (Some (failure_of e)), w').
Proof.
  intros Hcb Hl Hp Hput.
  unfold create_handler, update_handler, upload, _put_object.
  rewrite Hcb, Hl. unfold_monad. simpl. rewrite Hp. simpl.
  rewrite Hput. simpl. by destruct e.
Qed.

(** X4: a put that answers [None] is a failed upload: FAILED with
    InternalFailure and the message of the handler's own exception; the
    ARN is not written. *)
Theorem fresh_write_null_response
    (sp : SessionProxy B) request callback_context w l p bk :
  _is_callback callback_context = false →
  desiredResourceState request = Some l →
  _upload_s3_helper (Some (heap w l)) request = Ok p →
  put_object (client sp "s3") (p_Bucket p) (p_Key p) (p_Body p) (p_Tags p)
             (backend w) = (Ok None, bk) →
  ∃ w',
    create_handler (Some sp) request callback_context w
      = (Ok (Some (_progress_event_failed InternalFailure
                     "File Failed to upload")), w') ∧
    update_handler (Some sp) request callback_context w
      = (Ok (Some (_progress_event_failed InternalFailure
                     "File Failed to upload")), w') ∧
    heap w' = heap w.
Proof.
  intros Hcb Hl Hp Hput.
  unfold create_handler, update_handler, upload, _put_object.
  rewrite Hcb, Hl. unfold_monad. simpl. rewrite Hp. simpl.
  rewrite Hput. simpl. eexists. repeat split.
Qed.

(** X5: without a session, or with a model that lacks a bucket name, a
    key or contents (unset or empty), a fresh create or update fails with
    InternalFailure before any backend call: the world is left as found. *)
Theorem fresh_write_not_attempted session request callback_context w :
  _is_callback callback_context = false →
  session = None
  ∨ desiredResourceState request = None
  ∨ (∃ l, desiredResourceState request = Some l ∧
          truthy_str (BucketName (heap w l))
          && truthy_str (ObjectKey (heap w l))
          && truthy_str (ObjectContents (heap w l)) = false) →
  ∃ ev,
    create_handler session request callback_context w = (Ok (Some ev), w) ∧
    update_handler session request callback_context w = (Ok (Some ev), w) ∧
    status ev = FAILED ∧
    errorCode ev = Some InternalFailure.
Proof.
  intros Hcb Hwhy.
  unfold create_handler, update_handler, upload, _put_object.
  rewrite Hcb. unfold_monad.
  destruct Hwhy as [-> | [-> | (l & -> & Hf)]].
  - destruct (desiredResourceState request) as [l|];
      cbn [fmap option_fmap option_map _get_session_client];
      destruct (_upload_s3_helper _ request) as [p|e] eqn:Hp; simpl;
      try (apply upload_params_raise in Hp as [var ->]; simpl);
      eexists; repeat split.
  - cbn [fmap option_fmap option_map].
    destruct (_upload_s3_helper None request) as [p|e] eqn:Hp.
    + unfold _upload_s3_helper in Hp. simpl in Hp. discriminate.
    + apply upload_params_raise in Hp as [var ->]. simpl.
      eexists; repeat split.
  - cbn [fmap option_fmap option_map].
    destruct (_upload_s3_helper (Some (heap w l)) request) as [p|e] eqn:Hp.
    + apply upload_params_inv in Hp as (Hb & Hk & Hc & ? & ? & ?).
      rewrite Hb, Hk, Hc in Hf.
      destruct (p_Bucket p), (p_Key p), (p_Body p); simpl in Hf; done.
    + apply upload_params_raise in Hp as [var ->]. simpl.
      eexists; repeat split.
Qed.
End AwsCommunityFreshEdges.

Import MemS3.

Lemma fresh_create_update_returns_witness :
  _is_callback fresh_context = false ∧
  ∃ ev w',
    AwsCommunity.create_handler (session true) request0 fresh_context
      (world []) = (Ok (Some ev), w') ∧
    AwsCommunity.update_handler (session true) request0 fresh_context
      (world []) = (Ok (Some ev), w') ∧
    (status ev = IN_PROGRESS ∨ status ev = FAILED) ∧
    event_ok ev.
Proof.
  split; [reflexivity|].
  exact (fresh_create_update_returns (session true) request0 fresh_context
           (world []) eq_refl).
Defined.

Lemma fresh_write_put_raises_witness :
  _is_callback fresh_context = false ∧
  desiredResourceState request0 = Some 0%nat ∧
  AwsCommunity.create_handler throttled_session request0 fresh_context
    (world [])
  = (Ok (Some (_progress_event_failed Throttling "Slow down")),
     mkWorld heap0 [] [PutObject "bkt" "k.txt" "hello" None]) ∧
  AwsCommunity.update_handler throttled_session request0 fresh_context
    (world [])
  = (Ok (Some (_progress_event_failed Throttling "Slow down")),
     mkWorld heap0 [] [PutObject "bkt" "k.txt" "hello" None]).
Proof.
  split; [reflexivity|]. split; [reflexivity|].
  exact (fresh_write_put_raises
           (mkSessionProxy state (fun _ => throttled)) request0
           fresh_context (world []) 0%nat
           (mkS3Params "bkt" "k.txt" "hello" None)
           (ClientError "RequestLimitExceeded" "Slow down") []
           eq_refl eq_refl eq_refl eq_refl).
Defined.

Lemma fresh_write_not_attempted_witness :
  let request := mkRequest (Some 1%nat) None None in
  _is_callback fresh_context = false ∧
  truthy_str (BucketName (heap (world []) 1%nat)) = false ∧
  ∃ ev,
    AwsCommunity.create_handler (session true) request fresh_context
      (world []) = (Ok (Some ev), world []) ∧
    AwsCommunity.update_handler (session true) request fresh_context
      (world []) = (Ok (Some ev), world []) ∧
    status ev = FAILED ∧
    errorCode ev = Some InternalFailure.
Proof.
  split; [reflexivity|]. split; [reflexivity|].
  apply (fresh_write_not_attempted (session true)
           (mkRequest (Some 1%nat) None None) fresh_context (world []));
    [reflexivity|].
  right. right. exists 1%nat. split; reflexivity.
Defined.

Lemma fresh_write_null_response_witness :
  let silent : S3Client state :=
    {| put_object b k body tagging st := (Ok None, st);
       get_object := get_object (s3 true);
       get_object_tagging := get_object_tagging (s3 true);
       delete_object := delete_object (s3 true);
       list_objects_v2 := list_objects_v2 (s3 true) |} in
  let sp := mkSessionProxy state (fun _ => silent) in
  _is_callback fresh_context = false ∧
  desiredResourceState request0 = Some 0%nat ∧
  ∃ w',
    AwsCommunity.create_handler (Some sp) request0 fresh_context (world [])
      = (Ok (Some (_progress_event_failed InternalFailure
                     "File Failed to upload")), w') ∧
    AwsCommunity.update_handler (Some sp) request0 fresh_context (world [])
      = (Ok (Some (_progress_event_failed InternalFailure
                     "File Failed to upload")), w') ∧
    heap w' = heap (world []).
Proof.
  split; [reflexivity|]. split; [reflexivity|].
  eapply (fresh_write_null_response _ request0 fresh_context (world [])
            0%nat (mkS3Params "bkt" "k.txt" "hello" None));
    reflexivity.
Defined.

(** ** Read *)

Section AwsCommunityReadEdges.
Context {B : Type}.
Implicit Types (session : option (SessionProxy B)) (w : World B).
Import AwsCommunity.

(** X6: when [get_object] raises, or the body cannot be read and
    decoded, that single call is the only one made and the request's
    model is left untouched.  A ClientError gives FAILED with the kind
    its code classifies to; any other exception makes the handler raise
    the AttributeError of its second [except] clause. *)
Theorem read_handler_get_fails
    (sp : SessionProxy B) request callback_context w l r e bk :
  desiredResourceState request = Some l →
  get_object (client sp "s3") (default "" (BucketName (heap w l)))
             (default "" (ObjectKey (heap w l))) (backend w) = (r, bk) →
  r = Raise e ∨ (∃ resp, r = Ok resp ∧ Body resp = Raise e) →
  read_handler (Some sp) request callback_context w
  = (read_failure e,
     mkWorld (heap w) bk
             (calls w ++ [GetObject (default "" (BucketName (heap w l)))
                                    (default "" (ObjectKey (heap w l)))])).
Proof.
  intros Hl Hget Hr.
  unfold read_handler. rewrite Hl. unfold_monad. simpl.
  rewrite !truthy_str_default, Hget.
  destruct Hr as [-> | (resp & -> & Hb)]; simpl; rewrite ?Hb; simpl.
  all: by destruct e.
Qed.

(** X7: when the object is fetched but [get_object_tagging] raises, the
    request's model has already been written to: contents and ARN are
    the new ones, the tags the old ones.  The outcome is FAILED for a
    ClientError and the AttributeError of the second [except] clause for
    any other exception. *)
Theorem read_handler_tagging_fails
    (sp : SessionProxy B) request callback_context w l resp body e bk1 bk2 :
  desiredResourceState request = Some l →
  get_object (client sp "s3") (default "" (BucketName (heap w l)))
             (default "" (ObjectKey (heap w l))) (backend w)
    = (Ok resp, bk1) →
  Body resp = Ok body →
  get_object_tagging (client sp "s3") (default "" (BucketName (heap w l)))
             (default "" (ObjectKey (heap w l))) bk1 = (Raise e, bk2) →
  ∃ w',
    read_handler (Some sp) request callback_context w
      = (read_failure e, w') ∧
    backend w' = bk2 ∧
    heap w' l =
      {| BucketName := BucketName (heap w l);
         ObjectKey := ObjectKey (heap w l);
         ObjectContents := Some body;
         ObjectArn := Some (arn_of (heap w l));
         Tags := Tags (heap w l) |}.
Proof.
  intros Hl Hget Hb Htag.
  unfold read_handler. rewrite Hl. unfold_monad. simpl.
  rewrite !truthy_str_default, Hget. simpl. rewrite Hb. simpl.
  rewrite Htag. simpl.
  destruct e; simpl.
  all: eexists; split; [reflexivity|]; split; [reflexivity|]; simpl.
  all: by rewrite !fn_lookup_insert.
Qed.

(** X8: without a session the read raises: the method lookup on [None]
    fails, that is no ClientError, and the second [except] clause's
    missing class sends an AttributeError out of the handler, with no
    call made and nothing written.  Whenever the read raises, a callback
    of create, update or delete lets the same exception through, and a
    fresh delete catches it: FAILED/InternalFailure in the world the read
    left, without any [delete_object] call. *)
Theorem read_handler_raises session request callback_context w :
  read_handler None request callback_context w
    = (Raise missing_GeneralServiceException, w) ∧
  ∀ e w1,
    read_handler session request callback_context w = (Raise e, w1) →
    e = missing_GeneralServiceException ∧
    (_is_callback callback_context = true →
     create_handler session request callback_context w = (Raise e, w1) ∧
     update_handler session request callback_context w = (Raise e, w1) ∧
     delete_handler session request callback_context w = (Raise e, w1)) ∧
    (_is_callback callback_context = false →
     delete_handler session request callback_context w
     = (Ok (Some (_progress_event_failed InternalFailure (str_exn e))),
        w1)).
Proof.
  split.
  - unfold read_handler. unfold_monad.
    by destruct (desiredResourceState request).
  - intros e w1 Hread.
    assert (He : e = missing_GeneralServiceException).
    { destruct (read_handler_result _ _ _ _ _ _ Hread)
        as [(l & _ & ? & _)|[(c & m & ?)|?]]; by simplify_eq. }
    split; [exact He|]. split.
    + intros Hcb.
      unfold create_handler, update_handler, delete_handler,
        _callback_helper, bind.
      by rewrite Hcb, Hread.
    + intros Hcb. unfold delete_handler. rewrite Hcb.
      unfold bind, try_except, deref, ret. rewrite Hread. by subst e.
Qed.

(** The calls of a read: none, the get, or the get and the tagging. *)
Lemma read_handler_calls session request callback_context w res w' :
  read_handler session request callback_context w = (res, w') →
  only_reads w w'.
Proof.
  unfold read_handler, only_reads. unfold_monad.
  destruct (desiredResourceState request) as [l|], session as [sp|];
    simpl; intros H.
  all: repeat exec_step; simpl in *.
  all: first
         [ exists []; rewrite app_nil_r; repeat split; simpl; lia
         | eexists [_]; repeat split; simpl; lia
         | eexists [_; _]; rewrite <- app_assoc; repeat split; simpl; lia ].
Qed.

Lemma callback_helper_calls session request callback_context model
    (is_delete_handler : bool) w :
  only_reads w (snd (_callback_helper session request callback_context
                       model is_delete_handler w)).
Proof.
  unfold _callback_helper, bind.
  destruct (read_handler session request callback_context w)
    as [res w1] eqn:Hr.
  pose proof (read_handler_calls _ _ _ _ _ _ Hr) as Hcalls.
  destruct res as [rh|e]; [|done].
  unfold lift_res, ret.
  repeat match goal with
         | |- context [match ?x with _ => _ end] => destruct x; simpl
         | |- context [if ?x then _ else _] => destruct x; simpl
         end; done.
Qed.

(** X9: the read, and with it every resumed create, update and delete,
    only reads the backend: the calls it adds are at most two, each a
    [get_object] or a [get_object_tagging]; no put and no delete is
    issued on a callback. *)
Theorem resumed_runs_only_read session request callback_context w :
  _is_callback callback_context = true →
  only_reads w (snd (read_handler session request callback_context w)) ∧
  only_reads w (snd (create_handler session request callback_context w)) ∧
  only_reads w (snd (update_handler session request callback_context w)) ∧
  only_reads w (snd (delete_handler session request callback_context w)).
Proof.
  intros Hcb. split.
  - destruct (read_handler session request callback_context w)
      as [res w1] eqn:Hr.
    by eapply read_handler_calls.
  - unfold create_handler, update_handler, delete_handler. rewrite Hcb.
    repeat split; apply callback_helper_calls.
Qed.
End AwsCommunityReadEdges.

Lemma read_handler_get_fails_witness :
  let garbled : S3Client state :=
    {| put_object := put_object (s3 true);
       get_object b k st :=
         (Ok (mkGetObjectOutput (Raise (OtherError "invalid start byte"))),
          st);
       get_object_tagging := get_object_tagging (s3 true);
       delete_object := delete_object (s3 true);
       list_objects_v2 := list_objects_v2 (s3 true) |} in
  desiredResourceState request0 = Some 0%nat ∧
  AwsCommunity.read_handler (session true) request0 fresh_context (world [])
  = (Ok (_progress_event_failed NotFound
           "The specified key does not exist."),
     mkWorld heap0 [] [GetObject "bkt" "k.txt"]) ∧
  AwsCommunity.read_handler
    (Some (mkSessionProxy state (fun _ => garbled))) request0 fresh_context
    (world stored)
  = (Raise missing_GeneralServiceException,
     mkWorld heap0 stored [GetObject "bkt" "k.txt"]).
Proof.
  split; [reflexivity|]. split.
  - apply (read_handler_get_fails
             (mkSessionProxy state (fun _ => s3 true)) request0
             fresh_context (world []) 0%nat (Raise no_such_key)
             no_such_key []);
      [reflexivity | reflexivity | by left].
  - eapply (read_handler_get_fails _ request0 fresh_context (world stored)
              0%nat _ (OtherError "invalid start byte") stored);
      [reflexivity | reflexivity | right; eexists; split; reflexivity].
Defined.

Lemma read_handler_tagging_fails_witness :
  let flaky : S3Client state :=
    {| put_object := put_object (s3 true);
       get_object := get_object (s3 true);
       get_object_tagging b k st :=
         (Raise (ClientError "RequestLimitExceeded" "Slow down"), st);
       delete_object := delete_object (s3 true);
       list_objects_v2 := list_objects_v2 (s3 true) |} in
  let sp := mkSessionProxy state (fun _ => flaky) in
  desiredResourceState request0 = Some 0%nat ∧
  ∃ w',
    AwsCommunity.read_handler (Some sp) request0 fresh_context (world stored)
      = (Ok (_progress_event_failed Throttling "Slow down"), w') ∧
    backend w' = stored ∧
    heap w' 0%nat =
      {| BucketName := Some "bkt"; ObjectKey := Some "k.txt";
         ObjectContents := Some "hello";
         ObjectArn := Some "arn:aws:s3:::bkt/k.txt";
         Tags := None |}.
Proof.
  split; [reflexivity|].
  eapply (read_handler_tagging_fails _ request0 fresh_context (world stored)
            0%nat (mkGetObjectOutput (Ok "hello")) "hello"
            (ClientError "RequestLimitExceeded" "Slow down") stored stored);
    reflexivity.
Defined.

Lemma read_handler_raises_witness :
  AwsCommunity.read_handler None request0 fresh_context (world stored)
    = (Raise missing_GeneralServiceException, world stored) ∧
  _is_callback resumed_context = true ∧
  AwsCommunity.create_handler None request0 resumed_context (world stored)
    = (Raise missing_GeneralServiceException, world stored) ∧
  AwsCommunity.delete_handler None request0 resumed_context (world stored)
    = (Raise missing_GeneralServiceException, world stored) ∧
  _is_callback fresh_context = false ∧
  AwsCommunity.delete_handler None request0 fresh_context (world stored)
    = (Ok (Some (_progress_event_failed InternalFailure
                   (str_exn missing_GeneralServiceException))),
       world stored).
Proof.
  pose proof (read_handler_raises (B := state) None request0
                resumed_context (world stored)) as [Hread Hall].
  destruct (Hall _ _ Hread) as (_ & Hresumed & _).
  destruct (Hresumed eq_refl) as (Hc & _ & Hd).
  pose proof (read_handler_raises (B := state) None request0
                fresh_context (world stored)) as [Hread' Hall'].
  destruct (Hall' _ _ Hread') as (_ & _ & Hfresh).
  split; [exact Hread'|]. split; [reflexivity|].
  split; [exact Hc|]. split; [exact Hd|]. split; [reflexivity|].
  exact (Hfresh eq_refl).
Defined.

Lemma resumed_runs_only_read_witness :
  _is_callback resumed_context = true ∧
  only_reads (world stored)
    (snd (AwsCommunity.delete_handler (session true) request0
            resumed_context (world stored))).
Proof.
  split; [reflexivity|].
  apply (resumed_runs_only_read (session true) request0 resumed_context
           (world stored) eq_refl).
Defined.

(** ** Callbacks in terms of the backend's answers *)

Section AwsCommunityResumedRuns.
Context {B : Type}.
Implicit Types (session : option (SessionProxy B)) (w : World B).
Import AwsCommunity.

(** X10: on a callback, a [get_object] that raises the ClientError
    ["NoSuchKey"] ends create and update with FAILED/NotFound (the text
    behind a doubled ["Error: "]) and ends delete with SUCCESS and no
    model; one call is made and the store is untouched. *)
Theorem resumed_on_no_such_key
    (sp : SessionProxy B) request callback_context w l msg bk :
  _is_callback callback_context = true →
  desiredResourceState request = Some l →
  get_object (client sp "s3") (default "" (BucketName (heap w l)))
             (default "" (ObjectKey (heap w l))) (backend w)
    = (Raise (ClientError "NoSuchKey" msg), bk) →
  let w' := mkWorld (heap w) bk
              (calls w ++ [GetObject (default "" (BucketName (heap w l)))
                                     (default "" (ObjectKey (heap w l)))]) in
  let failed := _progress_event_failed NotFound ("Error: " +:+ msg) in
  create_handler (Some sp) request callback_context w
    = (Ok (Some failed), w') ∧
  update_handler (Some sp) request callback_context w
    = (Ok (Some failed), w') ∧
  delete_handler (Some sp) request callback_context w
    = (Ok (Some (ProgressEvent_new SUCCESS)), w').
Proof.
  intros Hcb Hl Hget.
  unfold create_handler, update_handler, delete_handler, _callback_helper,
    read_handler.
  rewrite Hcb, Hl. unfold_monad. simpl.
  rewrite !truthy_str_default, Hget. simpl. done.
Qed.

(** X11: on a callback, a [get_object] that raises a ClientError with any
    other code makes create, update and delete return no event at all
    ([None]): no branch of the callback helper handles a read that failed
    with a kind other than NotFound. *)
Theorem resumed_on_other_client_error
    (sp : SessionProxy B) request callback_context w l code msg bk :
  _is_callback callback_context = true →
  desiredResourceState request = Some l →
  code ≠ "NoSuchKey" →
  get_object (client sp "s3") (default "" (BucketName (heap w l)))
             (default "" (ObjectKey (heap w l))) (backend w)
    = (Raise (ClientError code msg), bk) →
  let w' := mkWorld (heap w) bk
              (calls w ++ [GetObject (default "" (BucketName (heap w l)))
                                     (default "" (ObjectKey (heap w l)))]) in
  create_handler (Some sp) request callback_context w = (Ok None, w') ∧
  update_handler (Some sp) request callback_context w = (Ok None, w') ∧
  delete_handler (Some sp) request callback_context w = (Ok None, w').
Proof.
  intros Hcb Hl Hcode Hget.
  unfold create_handler, update_handler, delete_handler, _callback_helper,
    read_handler.
  rewrite Hcb, Hl. unfold_monad. simpl.
  rewrite !truthy_str_default, Hget. simpl.
  assert (Hk : _get_handler_error_code code ≠ NotFound).
  { unfold _get_handler_error_code.
    case_bool_decide; [done|]. by repeat case_bool_decide. }
  destruct (_get_handler_error_code code); done.
Qed.

(** X12: create in two invocations.  A fresh create whose put is
    acknowledged returns IN_PROGRESS with a context; create called again
    with that context, the object now readable, returns SUCCESS with the
    request's model.  Over both runs the backend saw one put, one get and
    one tagging read, and the model ends with its names kept, the ARN of
    its names, and contents and tags as the backend returned them. *)
Theorem create_then_callback
    (sp : SessionProxy B) request callback_context w l p ack bk
    got body tagging bk1 bk2 :
  _is_callback callback_context = false →
  desiredResourceState request = Some l →
  _upload_s3_helper (Some (heap w l)) request = Ok p →
  put_object (client sp "s3") (p_Bucket p) (p_Key p) (p_Body p) (p_Tags p)
             (backend w) = (Ok (Some ack), bk) →
  get_object (client sp "s3") (p_Bucket p) (p_Key p) bk = (Ok got, bk1) →
  Body got = Ok body →
  get_object_tagging (client sp "s3") (p_Bucket p) (p_Key p) bk1
    = (Ok tagging, bk2) →
  ∃ ev1 w1 ctx ev2 w2,
    create_handler (Some sp) request callback_context w
      = (Ok (Some ev1), w1) ∧
    status ev1 = IN_PROGRESS ∧
    callbackContext ev1 = Some ctx ∧
    create_handler (Some sp) request ctx w1 = (Ok (Some ev2), w2) ∧
    status ev2 = SUCCESS ∧
    resourceModel ev2 = Some l ∧
    calls w2 = calls w ++ [PutObject (p_Bucket p) (p_Key p) (p_Body p)
                                     (p_Tags p);
                           GetObject (p_Bucket p) (p_Key p);
                           GetObjectTagging (p_Bucket p) (p_Key p)] ∧
    heap w2 l =
      {| BucketName := Some (p_Bucket p);
         ObjectKey := Some (p_Key p);
         ObjectContents := Some body;
         ObjectArn := Some (object_arn (p_Bucket p) (p_Key p));
         Tags := Some (_get_model_tags_from_tags (TagSet tagging)) |}.
Proof.
  intros Hcb Hl Hp Hput Hget Hbody Htag.
  destruct (upload_params_inv _ _ _ Hp) as (Hb & Hk & _).
  eexists _, _, CALLBACK_STATUS_IN_PROGRESS, _, _.
  split.
  { unfold create_handler, upload, _put_object.
    rewrite Hcb, Hl. unfold_monad. simpl. rewrite Hp. simpl.
    rewrite Hput. simpl. reflexivity. }
  split; [reflexivity|]. split; [reflexivity|].
  split.
  { unfold create_handler, _callback_helper, read_handler.
    change (_is_callback CALLBACK_STATUS_IN_PROGRESS) with true.
    rewrite Hl. unfold_monad. simpl.
    rewrite !truthy_str_default, !fn_lookup_insert. simpl.
    rewrite Hb, Hk. simpl. rewrite Hget. simpl. rewrite Hbody. simpl.
    rewrite Htag. simpl. reflexivity. }
  split; [reflexivity|]. split; [reflexivity|]. split.
  - simpl. by rewrite <- !app_assoc.
  - simpl. rewrite !fn_lookup_insert.
    unfold set_Tags, set_ObjectArn, set_ObjectContents. simpl.
    by rewrite Hb, Hk.
Qed.

(** X13: reading twice.  When the two reads of the backend leave it as it
    is, a second read right after a successful one returns the same event
    and leaves the store as the first left it. *)
Theorem read_handler_twice
    (sp : SessionProxy B) request callback_context w l got body tagging :
  desiredResourceState request = Some l →
  get_object (client sp "s3") (default "" (BucketName (heap w l)))
             (default "" (ObjectKey (heap w l))) (backend w)
    = (Ok got, backend w) →
  Body got = Ok body →
  get_object_tagging (client sp "s3") (default "" (BucketName (heap w l)))
             (default "" (ObjectKey (heap w l))) (backend w)
    = (Ok tagging, backend w) →
  ∃ ev w1 w2,
    read_handler (Some sp) request callback_context w = (Ok ev, w1) ∧
    read_handler (Some sp) request callback_context w1 = (Ok ev, w2) ∧
    status ev = SUCCESS ∧
    resourceModel ev = Some l ∧
    (∀ l', heap w2 l' = heap w1 l') ∧
    backend w2 = backend w1.
Proof.
  intros Hl Hget Hbody Htag.
  eexists _, _, _. split.
  { unfold read_handler. rewrite Hl. unfold_monad. simpl.
    rewrite !truthy_str_default, Hget. simpl. rewrite Hbody. simpl.
    rewrite Htag. simpl. reflexivity. }
  split.
  { unfold read_handler. rewrite Hl. unfold_monad. simpl.
    rewrite !truthy_str_default, !fn_lookup_insert. simpl.
    rewrite Hget. simpl. rewrite Hbody. simpl.
    rewrite Htag. simpl. reflexivity. }
  split; [reflexivity|]. split; [reflexivity|]. split; [|reflexivity].
  intros l'. simpl. destruct (decide (l = l')) as [<-|Hne].
  - by rewrite !fn_lookup_insert.
  - by rewrite !fn_lookup_insert_ne.
Qed.
End AwsCommunityResumedRuns.

Lemma resumed_on_no_such_key_witness :
  _is_callback resumed_context = true ∧
  desiredResourceState request0 = Some 0%nat ∧
  AwsCommunity.create_handler (session true) request0 resumed_context
    (world [])
  = (Ok (Some (_progress_event_failed NotFound
                 "Error: The specified key does not exist.")),
     mkWorld heap0 [] [GetObject "bkt" "k.txt"]) ∧
  AwsCommunity.update_handler (session true) request0 resumed_context
    (world [])
  = (Ok (Some (_progress_event_failed NotFound
                 "Error: The specified key does not exist.")),
     mkWorld heap0 [] [GetObject "bkt" "k.txt"]) ∧
  AwsCommunity.delete_handler (session true) request0 resumed_context
    (world [])
  = (Ok (Some (ProgressEvent_new SUCCESS)),
     mkWorld heap0 [] [GetObject "bkt" "k.txt"]).
Proof.
  split; [reflexivity|]. split; [reflexivity|].
  exact (resumed_on_no_such_key
           (mkSessionProxy state (fun _ => s3 true)) request0
           resumed_context (world []) 0%nat
           "The specified key does not exist." []
           eq_refl eq_refl eq_refl).
Defined.

Lemma resumed_on_other_client_error_witness :
  _is_callback resumed_context = true ∧
  desiredResourceState request0 = Some 0%nat ∧
  "RequestLimitExceeded" ≠ "NoSuchKey" ∧
  AwsCommunity.create_handler throttled_session request0 resumed_context
    (world stored)
  = (Ok None, mkWorld heap0 stored [GetObject "bkt" "k.txt"]) ∧
  AwsCommunity.update_handler throttled_session request0 resumed_context
    (world stored)
  = (Ok None, mkWorld heap0 stored [GetObject "bkt" "k.txt"]) ∧
  AwsCommunity.delete_handler throttled_session request0 resumed_context
    (world stored)
  = (Ok None, mkWorld heap0 stored [GetObject "bkt" "k.txt"]).
Proof.
  split; [reflexivity|]. split; [reflexivity|]. split; [discriminate|].
  apply (resumed_on_other_client_error
           (mkSessionProxy state (fun _ => throttled)) request0
           resumed_context (world stored) 0%nat
           "RequestLimitExceeded" "Slow down" stored);
    try reflexivity; discriminate.
Defined.

Lemma create_then_callback_witness :
  _is_callback fresh_context = false ∧
  desiredResourceState request0 = Some 0%nat ∧
  ∃ ev1 w1 ctx ev2 w2,
    AwsCommunity.create_handler (session true) request0 fresh_context
      (world []) = (Ok (Some ev1), w1) ∧
    status ev1 = IN_PROGRESS ∧
    callbackContext ev1 = Some ctx ∧
    AwsCommunity.create_handler (session true) request0 ctx w1
      = (Ok (Some ev2), w2) ∧
    status ev2 = SUCCESS ∧
    resourceModel ev2 = Some 0%nat ∧
    calls w2 = [PutObject "bkt" "k.txt" "hello" None;
                GetObject "bkt" "k.txt"; GetObjectTagging "bkt" "k.txt"] ∧
    heap w2 0%nat =
      {| BucketName := Some "bkt"; ObjectKey := Some "k.txt";
         ObjectContents := Some "hello";
         ObjectArn := Some (object_arn "bkt" "k.txt");
         Tags := Some [] |}.
Proof.
  split; [reflexivity|]. split; [reflexivity|].
  exact (create_then_callback
           (mkSessionProxy state (fun _ => s3 true)) request0 fresh_context
           (world []) 0%nat (mkS3Params "bkt" "k.txt" "hello" None)
           (mkPutObjectOutput (Some "v1")) [mkObj "bkt" "k.txt" "hello" []]
           (mkGetObjectOutput (Ok "hello")) "hello"
           (mkGetObjectTaggingOutput [])
           [mkObj "bkt" "k.txt" "hello" []] [mkObj "bkt" "k.txt" "hello" []]
           eq_refl eq_refl eq_refl eq_refl eq_refl eq_refl eq_refl).
Defined.

Lemma read_handler_twice_witness :
  desiredResourceState request0 = Some 0%nat ∧
  ∃ ev w1 w2,
    AwsCommunity.read_handler (session true) request0 fresh_context
      (world stored) = (Ok ev, w1) ∧
    AwsCommunity.read_handler (session true) request0 fresh_context w1
      = (Ok ev, w2) ∧
    status ev = SUCCESS ∧
    resourceModel ev = Some 0%nat ∧
    (∀ l', heap w2 l' = heap w1 l') ∧
    backend w2 = backend w1.
Proof.
  split; [reflexivity|].
  exact (read_handler_twice
           (mkSessionProxy state (fun _ => s3 true)) request0 fresh_context
           (world stored) 0%nat (mkGetObjectOutput (Ok "hello")) "hello"
           (mkGetObjectTaggingOutput [("team", "infra")])
           eq_refl eq_refl eq_refl eq_refl).
Defined.

(** ** Listing, further *)

Section AwsCommunityListEdges.
Context {B : Type}.
Implicit Types (session : option (SessionProxy B)) (w : World B).
Import AwsCommunity.

(** X14: a listing with objects gives SUCCESS with one model per listed
    key, in the order of the listing: the bucket name of the request's
    model, the key, the ARN of the two, and neither contents nor tags.
    One call is made and the store is untouched. *)
Theorem list_handler_models
    (sp : SessionProxy B) request callback_context w l b resp contents bk :
  desiredResourceState request = Some l →
  BucketName (heap w l) = Some b →
  b ≠ "" →
  list_objects_v2 (client sp "s3") b (backend w) = (Ok resp, bk) →
  Contents resp = Some contents →
  ∃ ev models,
    list_handler (Some sp) request callback_context w
      = (Ok ev, mkWorld (heap w) bk (calls w ++ [ListObjectsV2 b])) ∧
    status ev = SUCCESS ∧
    resourceModel ev = None ∧
    resourceModels ev = Some models ∧
    length models = length contents ∧
    map ObjectKey models = map (fun o => Some (ContentKey o)) contents ∧
    ∀ m, m ∈ models →
         BucketName m = Some b ∧ ObjectArn m = Some (arn_of m) ∧
         ObjectContents m = None ∧ Tags m = None.
Proof.
  intros Hl Hb Hne Hlist Hc.
  unfold list_handler. rewrite Hl. unfold_monad. simpl. rewrite Hb.
  destruct b as [|c b]; [done|]. simpl. rewrite Hlist, Hc. simpl.
  rewrite success_list_flag.
  eexists _, _. split; [reflexivity|]. simpl.
  split; [done|]. split; [done|]. split; [done|].
  split; [by rewrite length_map|].
  split; [by rewrite map_map|].
  intros m Hm. apply list_elem_of_fmap in Hm as (o & -> & _). done.
Qed.

(** X15: when the listing raises, the list handler returns FAILED: the
    kind of a ClientError's code, InternalFailure for anything else. *)
Theorem list_handler_listing_raises
    (sp : SessionProxy B) request callback_context w l b e bk :
  desiredResourceState request = Some l →
  BucketName (heap w l) = Some b →
  b ≠ "" →
  list_objects_v2 (client sp "s3") b (backend w) = (Raise e, bk) →
  list_handler (Some sp) request callback_context w
  = (Ok (failure_of e), mkWorld (heap w) bk (calls w ++ [ListObjectsV2 b])).
Proof.
  intros Hl Hb Hne Hlist.
  unfold list_handler. rewrite Hl. unfold_monad. simpl. rewrite Hb.
  destruct b as [|c b]; [done|]. simpl. rewrite Hlist. simpl.
  by destruct e.
Qed.

(** X16: the list handler never raises and never writes to the store; it
    always returns a well-formed SUCCESS or FAILED event, after at most
    one call, a listing.  Without a session, or when the model names no
    bucket, that event is FAILED/InternalFailure and no call is made. *)
Theorem list_handler_returns session request callback_context w :
  ∃ ev w',
    list_handler session request callback_context w = (Ok ev, w') ∧
    heap w' = heap w ∧
    (status ev = SUCCESS ∨ status ev = FAILED) ∧
    event_ok ev ∧
    (calls w' = calls w ∨ ∃ b, calls w' = calls w ++ [ListObjectsV2 b]) ∧
    (session = None
     ∨ (∀ l, desiredResourceState request = Some l →
             truthy_str (BucketName (heap w l)) = false) →
     w' = w ∧ status ev = FAILED ∧ errorCode ev = Some InternalFailure).
Proof.
  destruct (list_handler session request callback_context w)
    as [res w'] eqn:H.
  revert H. unfold list_handler. unfold_monad.
  destruct (desiredResourceState request) as [l|], session as [sp|];
    simpl; intros H.
  all: repeat exec_step; simpl in *.
  all: rewrite ?success_list_flag in *; simplify_eq.
  all: eexists _, _; split; [reflexivity|]; simpl.
  all: split; [reflexivity|].
  all: split; [auto|].
  all: split; [unfold event_ok; simpl; repeat split; eauto|].
  all: split; [eauto|].
  all: intros [Hs | Hm]; try discriminate Hs;
    try (specialize (Hm _ eq_refl); congruence);
    try (split; [by destruct w|]; split; reflexivity).
  all: done.
Qed.
End AwsCommunityListEdges.

Lemma list_handler_models_witness :
  desiredResourceState request0 = Some 0%nat ∧
  BucketName (heap (world stored) 0%nat) = Some "bkt" ∧
  "bkt" ≠ "" ∧
  ∃ ev models,
    AwsCommunity.list_handler (session true) request0 fresh_context
      (world stored)
      = (Ok ev, mkWorld heap0 stored [ListObjectsV2 "bkt"]) ∧
    status ev = SUCCESS ∧
    resourceModel ev = None ∧
    resourceModels ev = Some models ∧
    length models = 1%nat ∧
    map ObjectKey models = [Some "k.txt"] ∧
    ∀ m, m ∈ models →
         BucketName m = Some "bkt" ∧ ObjectArn m = Some (arn_of m) ∧
         ObjectContents m = None ∧ Tags m = None.
Proof.
  split; [reflexivity|]. split; [reflexivity|]. split; [discriminate|].
  apply (list_handler_models
           (mkSessionProxy state (fun _ => s3 true)) request0 fresh_context
           (world stored) 0%nat "bkt"
           (mkListObjectsV2Output (Some [mkS3Object "k.txt"]))
           [mkS3Object "k.txt"] stored);
    try reflexivity; discriminate.
Defined.

Lemma list_handler_listing_raises_witness :
  desiredResourceState request0 = Some 0%nat ∧
  BucketName (heap (world []) 0%nat) = Some "bkt" ∧
  "bkt" ≠ "" ∧
  AwsCommunity.list_handler throttled_session request0 fresh_context
    (world [])
  = (Ok (_progress_event_failed Throttling "Slow down"),
     mkWorld heap0 [] [ListObjectsV2 "bkt"]).
Proof.
  split; [reflexivity|]. split; [reflexivity|]. split; [discriminate|].
  apply (list_handler_listing_raises
           (mkSessionProxy state (fun _ => throttled)) request0
           fresh_context (world []) 0%nat "bkt"
           (ClientError "RequestLimitExceeded" "Slow down") []);
    try reflexivity; discriminate.
Defined.

Lemma list_handler_returns_witness :
  ∃ ev,
    AwsCommunity.list_handler None request0 fresh_context (world [])
      = (Ok ev, world []) ∧
    status ev = FAILED ∧ errorCode ev = Some InternalFailure.
Proof.
  destruct (list_handler_returns (B := state) None request0 fresh_context
              (world []))
    as (ev & w' & Hrun & _ & _ & _ & _ & Hno).
  destruct (Hno (or_introl eq_refl)) as (-> & Hst & Hcode).
  by exists ev.
Defined.

(** ** Fresh delete *)

Section AwsCommunityDelete.
Context {B : Type}.
Implicit Types (session : option (SessionProxy B)) (w : World B).
Import AwsCommunity.

(** X17: a fresh delete whose read reports NotFound returns
    FAILED/NotFound with the read's message and stops there: the world is
    the one the read left, so no [delete_object] call is made. *)
Theorem fresh_delete_not_found session request callback_context w rh w1 :
  _is_callback callback_context = false →
  read_handler session request callback_context w = (Ok rh, w1) →
  errorCode rh = Some NotFound →
  delete_handler session request callback_context w
  = (Ok (Some (_progress_event_failed NotFound (message rh))), w1).
Proof.
  intros Hcb Hread Hcode.
  unfold delete_handler. rewrite Hcb.
  unfold bind, try_except, deref, ret. rewrite Hread, Hcode. reflexivity.
Qed.

(** X18: a fresh delete whose read returns an event that does not report
    NotFound, whether SUCCESS or FAILED with another kind (the kind of a
    ClientError's code), goes on to call [delete_object] once with the
    model's bucket and key.  It returns SUCCESS with no payload when the
    call returns, and FAILED with the classified kind when the call
    raises.  (A read that raises instead never gets this far.) *)
Theorem fresh_delete_issues_delete
    (sp : SessionProxy B) request callback_context w l b k rh w1 r bk :
  _is_callback callback_context = false →
  desiredResourceState request = Some l →
  BucketName (heap w l) = Some b → b ≠ "" →
  ObjectKey (heap w l) = Some k → k ≠ "" →
  read_handler (Some sp) request callback_context w = (Ok rh, w1) →
  errorCode rh ≠ Some NotFound →
  delete_object (client sp "s3") b k (backend w1) = (r, bk) →
  delete_handler (Some sp) request callback_context w
  = (Ok (Some (match r with
               | Ok _ => ProgressEvent_new SUCCESS
               | Raise e => failure_of e
               end)),
     mkWorld (heap w1) bk (calls w1 ++ [DeleteObject b k])).
Proof.
  intros Hcb Hl Hb Hbne Hk Hkne Hread Hcode Hdel.
  unfold delete_handler. rewrite Hcb, Hl.
  unfold bind, try_except, deref, ret. simpl. rewrite Hread, Hb, Hk.
  destruct b as [|cb b]; [done|]. destruct k as [|ck k]; [done|]. simpl.
  assert (Hgo :
    ∀ X (body : M B X) (other : M B X),
      match errorCode rh with
      | Some code => if bool_decide (code = NotFound) then other else body
      | None => body
      end = body).
  { intros X body other. destruct (errorCode rh) as [code|]; [|done].
    case_bool_decide; [subst; done | done]. }
  rewrite Hgo. unfold_monad. simpl. rewrite Hdel. simpl.
  destruct r as [[]|e]; simpl; [reflexivity|]. by destruct e.
Qed.

(** X19: a fresh delete never raises, never returns [None] and never asks
    for a callback: it returns one well-formed event, SUCCESS or FAILED,
    that carries no model. *)
Theorem fresh_delete_returns session request callback_context w :
  _is_callback callback_context = false →
  ∃ ev w',
    delete_handler session request callback_context w
      = (Ok (Some ev), w') ∧
    (status ev = SUCCESS ∨ status ev = FAILED) ∧
    resourceModel ev = None ∧ resourceModels ev = None ∧
    event_ok ev.
Proof.
  intros Hcb.
  destruct (delete_handler session request callback_context w)
    as [res w'] eqn:H.
  revert H. unfold delete_handler. rewrite Hcb. unfold_monad.
  destruct (read_handler session request callback_context w)
    as [rh w1] eqn:Hr.
  destruct (read_handler_result _ _ _ _ _ _ Hr)
    as [(l & Hl & -> & _)|[(c & m & ->) | -> ]]; simpl.
  all: intros H; repeat exec_step; simpl in *.
  all: eexists _, _; split; [reflexivity|]; simpl.
  all: split; [auto|].
  all: unfold event_ok; simpl; repeat split; eauto.
Qed.

(** X20: every event returned by the read, and by create, update and
    delete on a callback, is well formed for its status; none of them is
    IN_PROGRESS, so a callback never asks for another one. *)
Theorem callback_events_well_formed session request callback_context w :
  _is_callback callback_context = true →
  let settled (r : Res (option ProgressEvent) * World B) :=
    returns_ok r ∧
    match fst r with
    | Ok (Some ev) => status ev ≠ IN_PROGRESS
    | _ => True
    end in
  settled (returned (read_handler session request callback_context w)) ∧
  settled (create_handler session request callback_context w) ∧
  settled (update_handler session request callback_context w) ∧
  settled (delete_handler session request callback_context w).
Proof.
  intros Hcb settled.
  assert (Hh : ∀ del, settled (_callback_helper session request
                                 callback_context
                                 (desiredResourceState request) del w)).
  { intros del. unfold settled, returns_ok, _callback_helper, bind.
    destruct (read_handler session request callback_context w)
      as [res w1] eqn:Hr.
    destruct (read_handler_result _ _ _ _ _ _ Hr)
      as [(l & Hl & -> & _)|[(c & m & ->) | -> ]]; simpl.
    - rewrite Hl. simpl. by repeat split.
    - destruct c, del; simpl; repeat split; eauto; done.
    - done. }
  split.
  - unfold settled, returns_ok, returned.
    destruct (read_handler session request callback_context w)
      as [res w1] eqn:Hr.
    destruct (read_handler_result _ _ _ _ _ _ Hr)
      as [(l & Hl & -> & _)|[(c & m & ->) | -> ]]; simpl;
      repeat split; eauto; done.
  - unfold create_handler, update_handler, delete_handler. rewrite Hcb.
    repeat split; apply Hh.
Qed.
End AwsCommunityDelete.

Lemma fresh_delete_not_found_witness :
  ∃ rh w1,
    _is_callback fresh_context = false ∧
    AwsCommunity.read_handler (session true) request0 fresh_context
      (world []) = (Ok rh, w1) ∧
    errorCode rh = Some NotFound ∧
    AwsCommunity.delete_handler (session true) request0 fresh_context
      (world [])
    = (Ok (Some (_progress_event_failed NotFound (message rh))), w1) ∧
    calls w1 = [GetObject "bkt" "k.txt"].
Proof.
  destruct (AwsCommunity.read_handler (session true) request0
              fresh_context (world [])) as [r w'] eqn:E.
  pose proof E as E'. vm_compute in E. injection E as <- <-.
  eexists _, _. do 3 (split; [reflexivity|]).
  split; [|reflexivity].
  exact (fresh_delete_not_found (session true) request0 fresh_context
           (world []) _ _ eq_refl E' eq_refl).
Defined.

Lemma fresh_delete_issues_delete_witness :
  (∃ rh w1,
     _is_callback fresh_context = false ∧
     desiredResourceState request0 = Some 0%nat ∧
     AwsCommunity.read_handler (session true) request0 fresh_context
       (world stored) = (Ok rh, w1) ∧
     status rh = SUCCESS ∧
     errorCode rh ≠ Some NotFound ∧
     AwsCommunity.delete_handler (session true) request0 fresh_context
       (world stored)
     = (Ok (Some (ProgressEvent_new SUCCESS)),
        mkWorld (heap w1) [] (calls w1 ++ [DeleteObject "bkt" "k.txt"]))) ∧
  (∃ rh w1,
     AwsCommunity.read_handler throttled_session request0 fresh_context
       (world stored) = (Ok rh, w1) ∧
     status rh = FAILED ∧
     errorCode rh = Some Throttling ∧
     AwsCommunity.delete_handler throttled_session request0 fresh_context
       (world stored)
     = (Ok (Some (_progress_event_failed Throttling "Slow down")),
        mkWorld (heap w1) stored
                (calls w1 ++ [DeleteObject "bkt" "k.txt"]))).
Proof.
  split.
  - destruct (AwsCommunity.read_handler (session true) request0
                fresh_context (world stored)) as [r w'] eqn:E.
    pose proof E as E'. vm_compute in E. injection E as <- <-.
    eexists _, _. do 4 (split; [reflexivity|]). split; [discriminate|].
    eapply (fresh_delete_issues_delete
              (mkSessionProxy state (fun _ => s3 true)) request0
              fresh_context (world stored) 0%nat "bkt" "k.txt" _ _
              (Ok ()) []);
      [ reflexivity | reflexivity | reflexivity | discriminate | reflexivity
      | discriminate | exact E' | discriminate | reflexivity ].
  - destruct (AwsCommunity.read_handler throttled_session request0
                fresh_context (world stored)) as [r w'] eqn:E.
    pose proof E as E'. vm_compute in E. injection E as <- <-.
    eexists _, _. do 3 (split; [reflexivity|]).
    eapply (fresh_delete_issues_delete
              (mkSessionProxy state (fun _ => throttled)) request0
              fresh_context (world stored) 0%nat "bkt" "k.txt" _ _
              (Raise (ClientError "RequestLimitExceeded" "Slow down"))
              stored);
      [ reflexivity | reflexivity | reflexivity | discriminate | reflexivity
      | discriminate | exact E' | discriminate | reflexivity ].
Defined.

Lemma fresh_delete_returns_witness :
  _is_callback fresh_context = false ∧
  ∃ ev w',
    AwsCommunity.delete_handler throttled_session request0 fresh_context
      (world stored) = (Ok (Some ev), w') ∧
    (status ev = SUCCESS ∨ status ev = FAILED) ∧
    resourceModel ev = None ∧ resourceModels ev = None ∧
    event_ok ev.
Proof.
  split; [reflexivity|].
  exact (fresh_delete_returns throttled_session request0 fresh_context
           (world stored) eq_refl).
Defined.

Lemma callback_events_well_formed_witness :
  _is_callback resumed_context = true ∧
  returns_ok (AwsCommunity.create_handler (session true) request0
                resumed_context (world stored)).
Proof.
  split; [reflexivity|].
  exact (proj1 (proj1 (proj2 (callback_events_well_formed (session true)
                                request0 resumed_context (world stored)
                                eq_refl)))).
Defined.

(** * Further properties of the aws_s3_object handlers *)

Section AwsS3ObjectRuns.
Context {B : Type}.
Implicit Types (session : option (SessionProxy B)) (w : World B).
Import AwsS3Object.

(** X21: a fresh create whose put is acknowledged with a version
    identifier makes that one call (never with a tagging string), writes
    the ARN of the model's names into the request's object and returns
    IN_PROGRESS with the callback context and the fixed delay. *)
Theorem s3_fresh_create_versioned
    (sp : SessionProxy B) request callback_context w l p ack v bk :
  _is_callback callback_context = false →
  desiredResourceState request = Some l →
  _upload_s3_helper (Some (heap w l)) request = Some p →
  put_object (client sp "s3") (p_Bucket p) (p_Key p) (p_Body p) None
             (backend w) = (Ok (Some ack), bk) →
  VersionId ack = Some v →
  ∃ w',
    create_handler (Some sp) request callback_context w
      = (Ok (Some (_progress_event_callback (Some l))), w') ∧
    calls w' = calls w ++ [PutObject (p_Bucket p) (p_Key p) (p_Body p) None] ∧
    backend w' = bk ∧
    heap w' l = set_ObjectArn (Some (arn_of (heap w l))) (heap w l) ∧
    (∀ l', l' ≠ l → heap w' l' = heap w l').
Proof.
  intros Hcb Hl Hp Hput Hv.
  assert (Hnames : py_str (BucketName (heap w l))
                   = default "" (BucketName (heap w l)) ∧
                   py_str (ObjectKey (heap w l))
                   = default "" (ObjectKey (heap w l))).
  { unfold _upload_s3_helper in Hp.
    destruct (BucketName (heap w l)) as [[|]|],
      (ObjectKey (heap w l)) as [[|]|]; simpl in Hp; try discriminate;
      by split. }
  destruct Hnames as [Hb Hk].
  unfold create_handler, upload, _put_object.
  rewrite Hcb, Hl. unfold_monad.
  change (heap w <$> Some l) with (Some (heap w l)).
  cbv beta iota. rewrite Hp. simpl. rewrite Hput. simpl. rewrite Hv. simpl.
  rewrite Hb, Hk.
  eexists. repeat split; simpl.
  - by rewrite fn_lookup_insert.
  - intros l' Hne. by rewrite fn_lookup_insert_ne.
Qed.

(** X22: the create and update handlers of this file never return a
    FAILED event and never return [None]: they either raise, or return a
    SUCCESS or IN_PROGRESS event. *)
Theorem s3_create_update_never_failed session request callback_context w :
  let settled (r : Res (option ProgressEvent) * World B) :=
    match fst r with
    | Ok (Some ev) => status ev = SUCCESS ∨ status ev = IN_PROGRESS
    | Ok None => False
    | Raise _ => True
    end in
  settled (create_handler session request callback_context w) ∧
  settled (update_handler session request callback_context w).
Proof.
  intros settled.
  assert (Hh : ∀ del, settled (_callback_helper session request
                                 callback_context
                                 (desiredResourceState request) del w)).
  { intros del. unfold settled, _callback_helper, read_handler.
    unfold_monad. simpl.
    destruct (desiredResourceState request); simpl; auto. }
  unfold create_handler, update_handler.
  destruct (_is_callback callback_context); simpl; split; try apply Hh.
  all: unfold settled, bind, read_handler, ret.
  all: destruct (upload session request (desiredResourceState request) w)
         as [[[]|e] w1]; simpl; auto.
Qed.

(** X23: a fresh create without a session lets an AttributeError out of
    the handler; with a session and a model that lacks a bucket name, a
    key or contents it raises the library's InternalFailure exception.
    Neither run makes a backend call or touches the store. *)
Theorem s3_fresh_create_raises session request callback_context w :
  _is_callback callback_context = false →
  (session = None →
   ∃ name, create_handler session request callback_context w
           = (Raise (AttributeError name), w)) ∧
  (is_some session = true →
   _upload_s3_helper (heap w <$> desiredResourceState request) request
     = None →
   ∃ text, create_handler session request callback_context w
           = (Raise (CfnInternalFailure
                       ("was not expecting type " +:+ text)), w)).
Proof.
  intros Hcb. unfold create_handler, upload, _put_object. rewrite Hcb.
  unfold_monad. split.
  - intros ->. simpl. eexists. reflexivity.
  - destruct session as [sp|]; [|discriminate]. intros _ Hp.
    simpl. rewrite Hp. simpl. eexists. reflexivity.
Qed.

(** X24: on a callback the update handler of this file does the write:
    with a put acknowledged with a version identifier it makes that call,
    writes the ARN and returns SUCCESS with the request's model. *)
Theorem s3_resumed_update_writes
    (sp : SessionProxy B) request callback_context w l p ack v bk :
  _is_callback callback_context = true →
  desiredResourceState request = Some l →
  _upload_s3_helper (Some (heap w l)) request = Some p →
  put_object (client sp "s3") (p_Bucket p) (p_Key p) (p_Body p) None
             (backend w) = (Ok (Some ack), bk) →
  VersionId ack = Some v →
  ∃ ev w',
    update_handler (Some sp) request callback_context w
      = (Ok (Some ev), w') ∧
    status ev = SUCCESS ∧
    resourceModel ev = Some l ∧
    calls w' = calls w ++ [PutObject (p_Bucket p) (p_Key p) (p_Body p) None] ∧
    ObjectArn (heap w' l) = Some (arn_of (heap w l)).
Proof.
  intros Hcb Hl Hp Hput Hv.
  assert (Hnames : py_str (BucketName (heap w l))
                   = default "" (BucketName (heap w l)) ∧
                   py_str (ObjectKey (heap w l))
                   = default "" (ObjectKey (heap w l))).
  { unfold _upload_s3_helper in Hp.
    destruct (BucketName (heap w l)) as [[|]|],
      (ObjectKey (heap w l)) as [[|]|]; simpl in Hp; try discriminate;
      by split. }
  destruct Hnames as [Hb Hk].
  unfold update_handler, upload, _put_object, read_handler.
  rewrite Hcb, Hl. cbn [negb]. unfold_monad.
  change (heap w <$> Some l) with (Some (heap w l)).
  cbv beta iota. rewrite Hp. simpl. rewrite Hput. simpl. rewrite Hv. simpl.
  rewrite Hb, Hk.
  eexists _, _. repeat split; simpl.
  by rewrite fn_lookup_insert.
Qed.

(** X25: on a callback the create handler of this file reaches no
    backend: with a model in the request it returns SUCCESS with that
    model and leaves the world as found; with no model it raises the
    ValueError of the success constructor. *)
Theorem s3_resumed_create session request callback_context w :
  _is_callback callback_context = true →
  match desiredResourceState request with
  | Some l =>
      ∃ ev, create_handler session request callback_context w
            = (Ok (Some ev), w) ∧
            status ev = SUCCESS ∧ resourceModel ev = Some l
  | None =>
      ∃ text, create_handler session request callback_context w
              = (Raise (ValueError text), w)
  end.
Proof.
  intros Hcb. unfold create_handler, _callback_helper, read_handler.
  rewrite Hcb. unfold_monad. simpl.
  destruct (desiredResourceState request); simpl; eexists; repeat split.
Qed.
End AwsS3ObjectRuns.

Lemma s3_fresh_create_versioned_witness :
  _is_callback fresh_context = false ∧
  desiredResourceState request0 = Some 0%nat ∧
  ∃ w',
    AwsS3Object.create_handler (session true) request0 fresh_context
      (world [])
      = (Ok (Some (_progress_event_callback (Some 0%nat))), w') ∧
    calls w' = calls (world []) ++ [PutObject "bkt" "k.txt" "hello" None] ∧
    backend w' = [mkObj "bkt" "k.txt" "hello" []] ∧
    heap w' 0%nat = set_ObjectArn (Some (arn_of model0)) model0 ∧
    (∀ l', l' ≠ 0%nat → heap w' l' = heap (world []) l').
Proof.
  split; [reflexivity|]. split; [reflexivity|].
  exact (s3_fresh_create_versioned
           (mkSessionProxy state (fun _ => s3 true)) request0 fresh_context
           (world []) 0%nat (mkS3Params "bkt" "k.txt" "hello" None)
           (mkPutObjectOutput (Some "v1")) "v1" _
           eq_refl eq_refl eq_refl eq_refl eq_refl).
Defined.

Lemma s3_fresh_create_raises_witness :
  _is_callback fresh_context = false ∧
  (∃ name, AwsS3Object.create_handler None request0 fresh_context (world [])
           = (Raise (AttributeError name), world [])) ∧
  (∃ text, AwsS3Object.create_handler (session true)
             (mkRequest (Some 1%nat) None None) fresh_context (world [])
           = (Raise (CfnInternalFailure
                       ("was not expecting type " +:+ text)), world [])).
Proof.
  split; [reflexivity|]. split.
  - exact (proj1 (s3_fresh_create_raises None request0 fresh_context
                    (world []) eq_refl) eq_refl).
  - exact (proj2 (s3_fresh_create_raises (session true)
                    (mkRequest (Some 1%nat) None None) fresh_context
                    (world []) eq_refl) eq_refl eq_refl).
Defined.

Lemma s3_resumed_update_writes_witness :
  _is_callback resumed_context = true ∧
  desiredResourceState request0 = Some 0%nat ∧
  ∃ ev w',
    AwsS3Object.update_handler (session true) request0 resumed_context
      (world []) = (Ok (Some ev), w') ∧
    status ev = SUCCESS ∧
    resourceModel ev = Some 0%nat ∧
    calls w' = calls (world []) ++ [PutObject "bkt" "k.txt" "hello" None] ∧
    ObjectArn (heap w' 0%nat) = Some (arn_of model0).
Proof.
  split; [reflexivity|]. split; [reflexivity|].
  exact (s3_resumed_update_writes
           (mkSessionProxy state (fun _ => s3 true)) request0
           resumed_context (world []) 0%nat
           (mkS3Params "bkt" "k.txt" "hello" None)
           (mkPutObjectOutput (Some "v1")) "v1" _
           eq_refl eq_refl eq_refl eq_refl eq_refl).
Defined.

Lemma s3_resumed_create_witness :
  _is_callback resumed_context = true ∧
  ∃ ev, AwsS3Object.create_handler (session true) request0 resumed_context
          (world []) = (Ok (Some ev), world []) ∧
        status ev = SUCCESS ∧ resourceModel ev = Some 0%nat.
Proof.
  split; [reflexivity|].
  exact (s3_resumed_create (session true) request0 resumed_context
           (world []) eq_refl).
Defined.

(** * Tags from a read to a write *)

(** X26: tags as a read stores them go out again unchanged.  For a model
    whose tags are the conversion of a backend tag set that is not empty,
    with names and contents set and no stack tags on the request, the
    upload parameters carry the tag set as [Key=Value] entries joined by
    [&], in the backend's order. *)
Theorem tags_read_then_written (m : ResourceModel)
    (request : ResourceHandlerRequest) (tag_set : list (string * string)) :
  Tags m = Some (AwsCommunity._get_model_tags_from_tags tag_set) →
  tag_set ≠ [] →
  truthy_str (BucketName m) && truthy_str (ObjectKey m)
  && truthy_str (ObjectContents m) = true →
  truthy_list (desiredResourceTags request) = false →
  ∃ p,
    AwsCommunity._upload_s3_helper (Some m) request = Ok p ∧
    p_Tags p
    = Some (join_amp (map (fun kv => fst kv +:+ "=" +:+ snd kv) tag_set)).
Proof.
  intros Ht Hne Hf Hs.
  unfold AwsCommunity._upload_s3_helper, AwsCommunity._build_tag_list.
  rewrite Hf, Hs, Ht.
  destruct tag_set as [|kv tag_set]; [done|]. simpl.
  eexists. split; [reflexivity|]. simpl.
  rewrite model_tags_as_map. simpl.
  unfold AwsCommunity._get_model_tags_from_tags.
  by rewrite map_map.
Qed.

Lemma tags_read_then_written_witness :
  let m := set_Tags (Some [mkTag "team" "infra"; mkTag "env" "prod"])
                    model0 in
  Tags m = Some (AwsCommunity._get_model_tags_from_tags
                   [("team", "infra"); ("env", "prod")]) ∧
  ∃ p,
    AwsCommunity._upload_s3_helper (Some m) request0 = Ok p ∧
    p_Tags p = Some "team=infra&env=prod".
Proof.
  split; [reflexivity|].
  exact (tags_read_then_written
           (set_Tags (Some [mkTag "team" "infra"; mkTag "env" "prod"])
                     model0)
           request0 [("team", "infra"); ("env", "prod")]
           eq_refl ltac:(discriminate) eq_refl eq_refl).
Defined.
